(** * gammad: session controller of the gamma detector daemon

    A shallow embedding of [Controller] from [gammad.py]: the datagram
    dispatcher, the session state machine and the acquisition scheduler.
    The Twisted reactor, the detector plugin, the database module and the
    GPS thread are the environment: the outcome of every call into them is
    read from a [World] record, and every call is recorded in a trace of
    [effect]s. *)

From Stdlib Require Import ZArith QArith Lia.
From stdpp Require Import gmap strings list fin_maps.

Set Warnings "-register-all".

(** ** Python values *)

(** What [json.loads] produces, and what the controller stores and sends:
    [None], booleans, integers, floats, strings, lists and dicts with string
    keys.  Python integers are unbounded, hence [Z].  The strings of a
    decoded message are [unicode] objects; a text is held as its UTF-8
    bytes, so that it is ASCII exactly when every byte is below 128. *)
Inductive json : Type :=
  | JNull
  | JBool (b : bool)
  | JInt (z : Z)
  | JFloat (q : Q)
  | JStr (s : string)
  | JList (l : list json)
  | JObj (m : gmap string json).

(** The three classes told apart by the handlers of [datagramReceived]:
    [ProtocolError] with its [command] and [message], [ImportError], and
    any other [Exception], which carries [str(e)]. *)
Inductive exn : Type :=
  | ProtocolError (command message : string)
  | ImportError (message : string)
  | Exception (message : string).

(** What a method raises: one of the exceptions above, for which [str(e)]
    returns, or an [Exception] built from a [unicode] text that ASCII
    cannot encode, for which [str(e)] itself raises. *)
Inductive raised : Type :=
  | Printable (e : exn)
  | Unprintable (text : string).

Coercion Printable : exn >-> raised.

#[local] Arguments inl {A B} & _.

Fixpoint is_ascii (s : string) : bool :=
  match s with
  | EmptyString => true
  | String a s' => (Ascii.nat_of_ascii a <? 128)%nat && is_ascii s'
  end.

(** [Exception(text)] for a [unicode] text. *)
Definition Exception_unicode (text : string) : raised :=
  if is_ascii text then Printable (Exception text) else Unprintable text.

Definition KeyError (k : string) : exn := Exception ("'" +:+ k +:+ "'").
Definition TypeError (s : string) : exn := Exception s.
Definition IndexError (s : string) : exn := Exception s.
Definition AssertionError (s : string) : exn := Exception s.
Definition AttributeError (ty attr : string) : exn :=
  Exception ("'" +:+ ty +:+ "' object has no attribute '" +:+ attr +:+ "'").

Definition py_typename (v : json) : string :=
  match v with
  | JNull => "NoneType"
  | JBool _ => "bool"
  | JInt _ => "int"
  | JFloat _ => "float"
  | JStr _ => "unicode"
  | JList _ => "list"
  | JObj _ => "dict"
  end.

Definition py_number (v : json) : option Q :=
  match v with
  | JBool b => Some (inject_Z (Z.b2z b))
  | JInt z => Some (inject_Z z)
  | JFloat q => Some q
  | _ => None
  end.

(** [a == b]: numbers compare by value across [bool], [int] and [float],
    lists elementwise, dicts by keys and values. *)
Fixpoint py_eq (a b : json) {struct a} : bool :=
  match a, b with
  | JNull, JNull => true
  | JStr s, JStr t => String.eqb s t
  | JList l1, JList l2 =>
      (fix go (l1 l2 : list json) {struct l1} : bool :=
         match l1, l2 with
         | [], [] => true
         | x :: l1', y :: l2' => py_eq x y && go l1' l2'
         | _, _ => false
         end) l1 l2
  | JObj m1, JObj m2 =>
      bool_decide (dom m1 = dom m2) &&
      map_fold (fun k v acc =>
                  acc && match m2 !! k with
                         | Some v' => py_eq v v'
                         | None => false
                         end) true m1
  | _, _ =>
      match py_number a, py_number b with
      | Some x, Some y => Qeq_bool x y
      | _, _ => false
      end
  end.

Definition is_substring (k s : string) : bool :=
  match String.index 0 k s with Some _ => true | None => false end.

(** [k in v] for a string literal [k]. *)
Definition py_contains (k : string) (v : json) : exn + bool :=
  match v with
  | JObj m => inr (match m !! k with Some _ => true | None => false end)
  | JList l => inr (existsb (py_eq (JStr k)) l)
  | JStr s => inr (is_substring k s)
  | _ => inl (TypeError ("argument of type '" +:+ py_typename v +:+ "' is not iterable"))
  end.

(** [v[k]] for a string literal [k]. *)
Definition py_getitem (v : json) (k : string) : exn + json :=
  match v with
  | JObj m => match m !! k with Some x => inr x | None => inl (KeyError k) end
  | JList _ => inl (TypeError "list indices must be integers, not str")
  | JStr _ => inl (TypeError "string indices must be integers")
  | _ => inl (AttributeError (py_typename v) "__getitem__")
  end.

(** [v[k] = x] for a string literal [k]; the updated object is returned. *)
Definition py_setitem (v : json) (k : string) (x : json) : exn + json :=
  match v with
  | JObj m => inr (JObj (<[k := x]> m))
  | JList _ => inl (TypeError "list indices must be integers, not str")
  | _ => inl (TypeError ("'" +:+ py_typename v +:+ "' object does not support item assignment"))
  end.

(** ['literal' + v]. *)
Definition py_concat (prefix : string) (v : json) : exn + string :=
  match v with
  | JStr s => inr (prefix +:+ s)
  | _ => inl (TypeError ("cannot concatenate 'str' and '" +:+ py_typename v +:+ "' objects"))
  end.

(** ** The controller object *)

Module SessionState.
Inductive t : Set := Ready | Busy.
Definition eqb (a b : t) : bool :=
  match a, b with Ready, Ready | Busy, Busy => true | _, _ => false end.
End SessionState.

Module SpectrumState.
Inductive t : Set := Ready | Busy.
Definition eqb (a b : t) : bool :=
  match a, b with Ready, Ready | Busy, Busy => true | _, _ => false end.
End SpectrumState.

Module DetectorState.
Inductive t : Set := Cold | Warm.
Definition eqb (a b : t) : bool :=
  match a, b with Cold, Cold | Warm, Warm => true | _, _ => false end.
End DetectorState.

(** A datagram's source address [(host, port)]. *)
Definition addr : Type := string * Z.

(** A handle returned by [database.create]. *)
Definition conn : Type := nat.

(** [task.LoopingCall(self.sessionTick)]: all the controller observes of it
    is whether it is running. *)
Record LoopingCall : Set := { running : bool }.

(** The fields assigned in [Controller.__init__].  [None] is [JNull] for
    the two fields that hold decoded messages, and [Datatypes.None] for the
    others.  The GPS thread is part of the [World]; a plugin module is
    identified by its module name. *)
Record Controller : Type := {
  client_address : option addr;
  detector_state : DetectorState.t;
  detector_data : json;
  session_args : json;
  session_loop : option LoopingCall;
  session_state : SessionState.t;
  spectrum_state : SpectrumState.t;
  spectrum_index : Z;
  spectrum_failures : Z;
  database_connection : option conn;
  plugin : option string
}.

Definition init : Controller := {|
  client_address := None;
  detector_state := DetectorState.Cold;
  detector_data := JNull;
  session_args := JNull;
  session_loop := None;
  session_state := SessionState.Ready;
  spectrum_state := SpectrumState.Ready;
  spectrum_index := 0;
  spectrum_failures := 0;
  database_connection := None;
  plugin := None
|}.

(** Field assignments [self.f = x]. *)
Definition set_client_address (x : option addr) (c : Controller) : Controller :=
  {| client_address := x; detector_state := detector_state c;
     detector_data := detector_data c; session_args := session_args c;
     session_loop := session_loop c; session_state := session_state c;
     spectrum_state := spectrum_state c; spectrum_index := spectrum_index c;
     spectrum_failures := spectrum_failures c;
     database_connection := database_connection c; plugin := plugin c |}.

Definition set_detector_state (x : DetectorState.t) (c : Controller) : Controller :=
  {| client_address := client_address c; detector_state := x;
     detector_data := detector_data c; session_args := session_args c;
     session_loop := session_loop c; session_state := session_state c;
     spectrum_state := spectrum_state c; spectrum_index := spectrum_index c;
     spectrum_failures := spectrum_failures c;
     database_connection := database_connection c; plugin := plugin c |}.

Definition set_detector_data (x : json) (c : Controller) : Controller :=
  {| client_address := client_address c; detector_state := detector_state c;
     detector_data := x; session_args := session_args c;
     session_loop := session_loop c; session_state := session_state c;
     spectrum_state := spectrum_state c; spectrum_index := spectrum_index c;
     spectrum_failures := spectrum_failures c;
     database_connection := database_connection c; plugin := plugin c |}.

Definition set_session_args (x : json) (c : Controller) : Controller :=
  {| client_address := client_address c; detector_state := detector_state c;
     detector_data := detector_data c; session_args := x;
     session_loop := session_loop c; session_state := session_state c;
     spectrum_state := spectrum_state c; spectrum_index := spectrum_index c;
     spectrum_failures := spectrum_failures c;
     database_connection := database_connection c; plugin := plugin c |}.

Definition set_session_loop (x : option LoopingCall) (c : Controller) : Controller :=
  {| client_address := client_address c; detector_state := detector_state c;
     detector_data := detector_data c; session_args := session_args c;
     session_loop := x; session_state := session_state c;
     spectrum_state := spectrum_state c; spectrum_index := spectrum_index c;
     spectrum_failures := spectrum_failures c;
     database_connection := database_connection c; plugin := plugin c |}.

Definition set_session_state (x : SessionState.t) (c : Controller) : Controller :=
  {| client_address := client_address c; detector_state := detector_state c;
     detector_data := detector_data c; session_args := session_args c;
     session_loop := session_loop c; session_state := x;
     spectrum_state := spectrum_state c; spectrum_index := spectrum_index c;
     spectrum_failures := spectrum_failures c;
     database_connection := database_connection c; plugin := plugin c |}.

Definition set_spectrum_state (x : SpectrumState.t) (c : Controller) : Controller :=
  {| client_address := client_address c; detector_state := detector_state c;
     detector_data := detector_data c; session_args := session_args c;
     session_loop := session_loop c; session_state := session_state c;
     spectrum_state := x; spectrum_index := spectrum_index c;
     spectrum_failures := spectrum_failures c;
     database_connection := database_connection c; plugin := plugin c |}.

Definition set_spectrum_index (x : Z) (c : Controller) : Controller :=
  {| client_address := client_address c; detector_state := detector_state c;
     detector_data := detector_data c; session_args := session_args c;
     session_loop := session_loop c; session_state := session_state c;
     spectrum_state := spectrum_state c; spectrum_index := x;
     spectrum_failures := spectrum_failures c;
     database_connection := database_connection c; plugin := plugin c |}.

Definition set_spectrum_failures (x : Z) (c : Controller) : Controller :=
  {| client_address := client_address c; detector_state := detector_state c;
     detector_data := detector_data c; session_args := session_args c;
     session_loop := session_loop c; session_state := session_state c;
     spectrum_state := spectrum_state c; spectrum_index := spectrum_index c;
     spectrum_failures := x;
     database_connection := database_connection c; plugin := plugin c |}.

Definition set_database_connection (x : option conn) (c : Controller) : Controller :=
  {| client_address := client_address c; detector_state := detector_state c;
     detector_data := detector_data c; session_args := session_args c;
     session_loop := session_loop c; session_state := session_state c;
     spectrum_state := spectrum_state c; spectrum_index := spectrum_index c;
     spectrum_failures := spectrum_failures c;
     database_connection := x; plugin := plugin c |}.

Definition set_plugin (x : option string) (c : Controller) : Controller :=
  {| client_address := client_address c; detector_state := detector_state c;
     detector_data := detector_data c; session_args := session_args c;
     session_loop := session_loop c; session_state := session_state c;
     spectrum_state := spectrum_state c; spectrum_index := spectrum_index c;
     spectrum_failures := spectrum_failures c;
     database_connection := database_connection c; plugin := x |}.

(** ** The environment *)

(** Calls that leave the controller, in the order they are made. *)
Inductive effect : Type :=
  | TransportWrite (msg : json) (to : addr)
  | ImportModule (modname : string)
  | FinalizePlugin (p : string)
  | InitializePlugin (p : string)
  | InitializeDetector (p : string) (config : json)
  | InitializeSession (p : string) (args : json)
  | FinalizeSession (p : string) (args : json)
  | DatabaseCreate (config args : json)
  | DatabaseClose (handle : option conn)
  | DatabaseInsert (handle : option conn) (msg : json)
  | DatabaseQuery (name : json) (indices : list json) (last : Z)
  | LoopStart
  | LoopStop
  | DeferToThread
  | GpsStart
  | GpsStopSet
  | GpsJoin.

(** The outcome of each call into the environment made while one event is
    handled: [None] or [inr] when the call returns, the exception when it
    raises.  [json_loads data] is [json.loads(data.decode("utf-8"))]; the
    builtins [str], [int] and [list] on arbitrary values are the
    interpreter's, and [unicode_encode_error u] is the text of the
    [UnicodeEncodeError] that [str] raises on a [unicode] text [u] that
    ASCII cannot encode; [statvfs_root] is [f_bsize] and [f_bavail] of
    [os.statvfs('/')]. *)
Record World : Type := {
  json_loads : string -> exn + json;
  sys_modules : string -> bool;
  import_module : string -> option exn;
  plugin_finalizePlugin : string -> option exn;
  plugin_initializePlugin : string -> option exn;
  plugin_initializeDetector : string -> json -> option exn;
  plugin_initializeSession : string -> json -> option exn;
  plugin_finalizeSession : string -> json -> option exn;
  plugin_acquireSpectrum : string -> json -> exn + json;
  database_create : json -> json -> exn + conn;
  database_close : option conn -> option exn;
  database_insertSpectrum : option conn -> json -> option exn;
  database_getSyncSpectrums : json -> list json -> Z -> exn + list (list json);
  statvfs_root : Z * Z;
  gps_position : gmap string json;
  gps_velocity : gmap string json;
  gps_time : json;
  builtin_str : json -> string;
  builtin_str_addr : option addr -> string;
  unicode_encode_error : string -> string;
  builtin_int : json -> exn + Z;
  builtin_list : json -> exn + list json
}.

Definition UnicodeEncodeError (w : World) (object : string) : exn :=
  Exception (unicode_encode_error w object).

(** ** A monad for methods of the controller

    A method runs on the controller object, may assign its fields, calls
    into the environment, and returns or raises.  Assignments made before
    an exception is raised stay. *)
Record Result (A : Type) : Type := mkResult {
  value : raised + A;
  self : Controller;
  effects : list effect
}.
Arguments mkResult {A}.
Arguments value {A}.
Arguments self {A}.
Arguments effects {A}.

Definition M (A : Type) : Type := Controller -> Result A.

Definition ret {A} (a : A) : M A := fun c => mkResult (inr a) c [].

Definition raise {A} (e : raised) : M A := fun c => mkResult (inl e) c [].

Definition bind {A B} (m : M A) (k : A -> M B) : M B := fun c =>
  match m c with
  | mkResult (inl e) c' effs => mkResult (inl e) c' effs
  | mkResult (inr a) c' effs =>
      match k a c' with
      | mkResult v c'' effs' => mkResult v c'' (effs ++ effs')
      end
  end.

Declare Scope ctl_scope.
Delimit Scope ctl_scope with ctl.
Bind Scope ctl_scope with M.
Notation "x <- m ;; k" := (bind m (fun x => k))
  (at level 100, m at next level, k at level 200, right associativity) : ctl_scope.
Notation "m ;; k" := (bind m (fun _ => k))
  (at level 100, k at level 200, right associativity) : ctl_scope.
Local Open Scope ctl_scope.

Definition get {A} (field : Controller -> A) : M A :=
  fun c => mkResult (inr (field c)) c [].

Definition assign (set : Controller -> Controller) : M unit :=
  fun c => mkResult (inr tt) (set c) [].

Definition emit (e : effect) : M unit := fun c => mkResult (inr tt) c [e].

Definition lift {A} (r : exn + A) : M A :=
  match r with inl e => raise e | inr a => ret a end.

(** A call into the environment that returns nothing. *)
Definition call (e : effect) (outcome : option exn) : M unit :=
  emit e ;;
  match outcome with Some x => raise x | None => ret tt end.

(** A call into the environment that returns a value. *)
Definition call_for {A} (e : effect) (outcome : exn + A) : M A :=
  emit e ;; lift outcome.

(** [try: body except ... as e: handler e]. *)
Definition try_except (body : M unit) (handler : raised -> M unit) : M unit :=
  fun c =>
    match body c with
    | mkResult (inr u) c' effs => mkResult (inr u) c' effs
    | mkResult (inl e) c' effs =>
        match handler e c' with
        | mkResult v c'' effs' => mkResult v c'' (effs ++ effs')
        end
    end.

(** [for x in l: body x]. *)
Fixpoint for_each {A} (l : list A) (body : A -> M unit) : M unit :=
  match l with
  | [] => ret tt
  | x :: l' => body x ;; for_each l' body
  end.

(** ** Methods of [Controller] *)

(** [transport.write] is taken to return: the datagram is one the
    transport accepts and the socket does not fail. *)
Definition sendResponse (msg : json) : M unit :=
  a <- get client_address ;;
  match a with
  | Some to =>
      _ <- lift (py_getitem msg "command") ;;
      emit (TransportWrite msg to)
  | None => ret tt
  end.

(** [msg['command'] = command] changes the object the caller passed.  When
    a field of the controller refers to that same object, [store] is the
    assignment that makes the change visible through the field. *)
Definition sendResponseWithCommand (command : string) (msg : json)
    (store : json -> Controller -> Controller) : M unit :=
  msg' <- lift (py_setitem msg "command" (JStr command)) ;;
  assign (store msg') ;;
  sendResponse msg'.

Definition unshared (_ : json) (c : Controller) : Controller := c.

Definition sendResponseWithInfo (command info : string) : M unit :=
  sendResponse (JObj (<["command" := JStr command]> (<["message" := JStr info]> ∅))).

(** [self.plugin.attr(...)]: on [None] the attribute lookup raises. *)
Definition plugin_method (attr : string) (e : string -> effect)
    (outcome : string -> option exn) : M unit :=
  p <- get plugin ;;
  match p with
  | Some m => call (e m) (outcome m)
  | None => raise (AttributeError "NoneType" attr)
  end.

Definition loadPlugin (w : World) (name : json) : M string :=
  p <- get plugin ;;
  match p with
  | Some m => call (FinalizePlugin m) (plugin_finalizePlugin w m)
  | None => ret tt
  end ;;
  modname <- lift (py_concat "plugin_" name) ;;
  if sys_modules w modname then ret modname
  else call (ImportModule modname) (import_module w modname) ;; ret modname.

(** Called by the reactor when the port starts listening. *)
Definition startProtocol : M unit := emit GpsStart.

(** Called by the reactor when the port is closed: [gps_stop.set()] tells
    the GPS thread to end, [gps.join()] waits for it. *)
Definition stopProtocol (w : World) : M unit :=
  p <- get plugin ;;
  match p with
  | Some m => call (FinalizePlugin m) (plugin_finalizePlugin w m)
  | None => ret tt
  end ;;
  emit GpsStopSet ;;
  emit GpsJoin.

(** [LoopingCall.start(interval)] with the default [now=True] marks the
    call as running and makes the first call at once; [f] is the looped
    function. *)
Definition LoopingCall_start (f : M unit) : M unit :=
  assign (set_session_loop (Some {| running := true |})) ;;
  emit LoopStart ;;
  f.

(** [LoopingCall.stop()] asserts that the call is running. *)
Definition LoopingCall_stop : M unit :=
  l <- get session_loop ;;
  match l with
  | None => raise (AttributeError "NoneType" "stop")
  | Some {| running := false |} =>
      raise (AssertionError "Tried to stop a LoopingCall that was not running.")
  | Some {| running := true |} =>
      assign (set_session_loop (Some {| running := false |})) ;;
      emit LoopStop
  end.

Definition sessionTick : M unit :=
  s <- get spectrum_state ;;
  if SpectrumState.eqb s SpectrumState.Ready then
    emit DeferToThread ;;
    assign (set_spectrum_state SpectrumState.Busy)
  else ret tt.

Definition initializeSession (w : World) (msg : json) : M unit :=
  name <- lift (py_getitem msg "session_name") ;;
  _ <- lift (py_concat "Initializing session " name) ;;
  assign (set_session_args msg) ;;
  assign (set_spectrum_index 0) ;;
  assign (set_spectrum_failures 0) ;;
  config <- get detector_data ;;
  handle <- call_for (DatabaseCreate config msg) (database_create w config msg) ;;
  assign (set_database_connection (Some handle)) ;;
  plugin_method "initializeSession"
    (fun p => InitializeSession p msg) (fun p => plugin_initializeSession w p msg).

Definition finalizeSession (w : World) (msg : json) : M unit :=
  plugin_method "finalizeSession"
    (fun p => FinalizeSession p msg) (fun p => plugin_finalizeSession w p msg) ;;
  handle <- get database_connection ;;
  call (DatabaseClose handle) (database_close w handle) ;;
  assign (set_database_connection None).

Definition startSession (msg : json) : M unit :=
  name <- lift (py_getitem msg "session_name") ;;
  _ <- lift (py_concat "Starting session " name) ;;
  assign (set_session_loop (Some {| running := false |})) ;;
  LoopingCall_start sessionTick ;;
  assign (set_session_state SessionState.Busy).

Definition stopSession (msg : json) : M unit :=
  LoopingCall_stop ;;
  assign (set_session_state SessionState.Ready).

(** [msg.update(other)] for a dict [other]: its entries replace those of
    [msg]. *)
Definition py_update (msg : json) (other : gmap string json) : exn + json :=
  match msg with
  | JObj m => inr (JObj (other ∪ m))
  | _ => inl (AttributeError (py_typename msg) "update")
  end.

(** Runs in a worker thread; its result or failure comes back to the
    reactor as [handleSpectrumSuccess] or [handleSpectrumFailure]. *)
Definition aquireSpectrum (w : World) : M json :=
  let position := gps_position w in
  let velocity := gps_velocity w in
  let time := gps_time w in
  p <- get plugin ;;
  args <- get session_args ;;
  match p with
  | None => raise (AttributeError "NoneType" "acquireSpectrum")
  | Some m =>
      msg <- lift (plugin_acquireSpectrum w m args) ;;
      msg <- lift (py_update msg position) ;;
      msg <- lift (py_update msg velocity) ;;
      lift (py_setitem msg "time" time)
  end.

Definition handleSpectrumSuccess (w : World) (msg : json) : M unit :=
  index <- get spectrum_index ;;
  msg <- lift (py_setitem msg "index" (JInt index)) ;;
  assign (set_spectrum_index (index + 1)) ;;
  handle <- get database_connection ;;
  call (DatabaseInsert handle msg) (database_insertSpectrum w handle msg) ;;
  sendResponse msg ;;
  assign (set_spectrum_state SpectrumState.Ready).

Definition handleSpectrumFailure (w : World) (err : string) : M unit :=
  sendResponseWithInfo "error" err ;;
  failures <- get spectrum_failures ;;
  assign (set_spectrum_failures (failures + 1)) ;;
  failures <- get spectrum_failures ;;
  (if (3 <=? failures)%Z then
     args <- get session_args ;;
     stopSession args ;;
     args <- get session_args ;;
     finalizeSession w args ;;
     sendResponseWithInfo "error" "Acquiring spectrum has failed 3 times, stopping session"
   else ret tt) ;;
  assign (set_spectrum_state SpectrumState.Ready).

(** [s[i]] on a row returned by the database. *)
Definition row_field (s : list json) (i : nat) : exn + json :=
  match s !! i with
  | Some x => inr x
  | None => inl (IndexError "tuple index out of range")
  end.

(** The [spectrum] message built from one row in the [sync_session]
    branch: the fields are read in the order of the dict display. *)
Definition spectrum_fields : list (string * nat) :=
  [("session_name", 2); ("index", 3); ("time", 4);
   ("latitude", 5); ("latitude_error", 6);
   ("longitude", 7); ("longitude_error", 8);
   ("altitude", 9); ("altitude_error", 10);
   ("track", 11); ("track_error", 12);
   ("speed", 13); ("speed_error", 14);
   ("climb", 15); ("climb_error", 16);
   ("livetime", 17); ("realtime", 18);
   ("total_count", 19); ("num_channels", 20); ("channels", 21)]%nat.

Fixpoint spectrum_of_row (s : list json) (fields : list (string * nat))
    (acc : gmap string json) : exn + json :=
  match fields with
  | [] => inr (JObj acc)
  | (k, i) :: fields' =>
      match row_field s i with
      | inl e => inl e
      | inr x => spectrum_of_row s fields' (<[k := x]> acc)
      end
  end.

(** The three [except] clauses.  Each takes [str(e)] for the log before
    it answers; in the last one that raises for an exception that cannot
    be printed, and the error leaves [datagramReceived]. *)
Definition handlers (w : World) (e : raised) : M unit :=
  match e with
  | Printable (ProtocolError command message) => sendResponseWithInfo command message
  | Printable (ImportError _) => sendResponseWithInfo "error" "Unable to import module"
  | Printable (Exception message) => sendResponseWithInfo "error" message
  | Unprintable text => raise (UnicodeEncodeError w text)
  end.

Definition datagramReceived (w : World) (data : string) (from : addr) : M unit :=
  assign (set_client_address (Some from)) ;;
  try_except
    (msg <- lift (json_loads w data) ;;
     has_command <- lift (py_contains "command" msg) ;;
     if negb has_command then
       raise (ProtocolError "error" "Message has no command")
     else
     cmd <- lift (py_getitem msg "command") ;;
     if py_eq cmd (JStr "detector_config") then
       state <- get session_state ;;
       if SessionState.eqb state SessionState.Busy then
         raise (ProtocolError "detector_config_busy"
                  "Detector config failed, session is active")
       else
       config <- lift (py_getitem msg "detector_data") ;;
       assign (set_detector_data config) ;;
       config <- get detector_data ;;
       has_name <- lift (py_contains "plugin_name" config) ;;
       if negb has_name then
         raise (ProtocolError "detector_config_error"
                  "Detector config failed, plugin_name missing")
       else
       name <- lift (py_getitem config "plugin_name") ;;
       p <- loadPlugin w name ;;
       assign (set_plugin (Some p)) ;;
       plugin_method "initializePlugin" InitializePlugin (plugin_initializePlugin w) ;;
       config <- get detector_data ;;
       plugin_method "initializeDetector"
         (fun p => InitializeDetector p config)
         (fun p => plugin_initializeDetector w p config) ;;
       assign (set_detector_state DetectorState.Warm) ;;
       config <- get detector_data ;;
       sendResponseWithCommand "detector_config_success" config set_detector_data
     else if py_eq cmd (JStr "start_session") then
       state <- get session_state ;;
       if SessionState.eqb state SessionState.Busy then
         raise (ProtocolError "start_session_busy"
                  "Start session failed, session is active")
       else
       initializeSession w msg ;;
       startSession msg ;;
       sendResponseWithCommand "start_session_success" msg set_session_args
     else if py_eq cmd (JStr "stop_session") then
       state <- get session_state ;;
       if SessionState.eqb state SessionState.Ready then
         raise (ProtocolError "stop_session_noexist"
                  "Stop session failed, no session active")
       else
       args <- get session_args ;;
       current <- lift (py_getitem args "session_name") ;;
       given <- lift (py_getitem msg "session_name") ;;
       if negb (py_eq current given) then
         raise (ProtocolError "stop_session_wrongname"
                  "Stop session failed, wrong session name")
       else
       stopSession msg ;;
       finalizeSession w msg ;;
       sendResponseWithCommand "stop_session_success" msg unshared
     else if py_eq cmd (JStr "dump_session") then
       state <- get session_state ;;
       if SessionState.eqb state SessionState.Ready then
         raise (ProtocolError "dump_session_none"
                  "Dump session failed, no session active")
       else
       to <- get client_address ;;
       msg <- lift (py_setitem msg "message"
                      (JStr ("dumping session to " +:+ builtin_str_addr w to))) ;;
       sendResponseWithCommand "dump_session_success" msg unshared
     else if py_eq cmd (JStr "get_status") then
       let stat := statvfs_root w in
       state <- get session_state ;;
       index <- get spectrum_index ;;
       dstate <- get detector_state ;;
       let response := JObj (
         <["free_disk_space" := JInt (fst stat * snd stat)]> (
         <["session_running" :=
             JBool (if SessionState.eqb state SessionState.Busy then true else false)]> (
         <["spectrum_index" :=
             JInt (if SessionState.eqb state SessionState.Ready then 0 else index)]> (
         <["detector_configured" :=
             JBool (if DetectorState.eqb dstate DetectorState.Warm then true else false)]>
         ∅)))) in
       sendResponseWithCommand "get_status_success" response unshared
     else if py_eq cmd (JStr "sync_session") then
       name <- lift (py_getitem msg "session_name") ;;
       indices <- lift (py_getitem msg "indices_list") ;;
       indices <- lift (builtin_list w indices) ;;
       last <- lift (py_getitem msg "last_index") ;;
       last <- lift (builtin_int w last) ;;
       specs <- call_for (DatabaseQuery name indices last)
                  (database_getSyncSpectrums w name indices last) ;;
       for_each specs (fun s =>
         spec <- lift (spectrum_of_row s spectrum_fields {["command" := JStr "spectrum"]}) ;;
         sendResponse spec)
     else
       raise (match cmd with
              | JStr s => Exception_unicode ("Unknown command: " +:+ s)
              | _ => Printable (Exception ("Unknown command: " +:+ builtin_str w cmd))
              end))
    (handlers w).

(** The body of the loop of the [sync_session] branch. *)
Definition send_row (s : list json) : M unit :=
  spec <- lift (spectrum_of_row s spectrum_fields {["command" := JStr "spectrum"]}) ;;
  sendResponse spec.

(** ** The reactor

    All methods run on the single reactor thread, one event at a time: a
    datagram arrives, the looping call fires [sessionTick], or the deferred
    of an acquisition handed to the thread pool fires with a result or with
    a failure.  Acquisitions take any time and succeed or fail as the
    environment decides, so the results are events of their own. *)
Inductive event : Type :=
  | Datagram (w : World) (data : string) (from : addr)
  | Tick
  | Acquired (w : World) (msg : json)
  | AcquireFailed (w : World) (err : string).

(** [in_flight] counts the calls handed over by [deferToThread] whose
    deferred has not fired yet; [trace] collects the effects so far. *)
Record Reactor : Type := {
  controller : Controller;
  in_flight : nat;
  trace : list effect
}.

Definition boot : Reactor :=
  {| controller := init; in_flight := 0; trace := [] |}.

Definition is_defer (e : effect) : bool :=
  match e with DeferToThread => true | _ => false end.

Definition submitted (l : list effect) : nat := length (filter is_defer l).

(** The reactor after a method has run, returned or raised alike: an
    exception that leaves a callback is logged by Twisted and dropped. *)
Definition after {A} (s : Reactor) (pending : nat) (r : Result A) : Reactor :=
  {| controller := self r;
     in_flight := pending + submitted (effects r);
     trace := trace s ++ effects r |}.

(** One event; [None] when the event cannot occur in this state: the
    looping call fires only while it is running, a deferred fires only
    for an acquisition in flight. *)
Definition step (s : Reactor) (ev : event) : option Reactor :=
  match ev with
  | Datagram w data from =>
      Some (after s (in_flight s) (datagramReceived w data from (controller s)))
  | Tick =>
      match session_loop (controller s) with
      | Some {| running := true |} =>
          Some (after s (in_flight s) (sessionTick (controller s)))
      | _ => None
      end
  | Acquired w msg =>
      match in_flight s with
      | S n => Some (after s n (handleSpectrumSuccess w msg (controller s)))
      | O => None
      end
  | AcquireFailed w err =>
      match in_flight s with
      | S n => Some (after s n (handleSpectrumFailure w err (controller s)))
      | O => None
      end
  end.

Fixpoint run (s : Reactor) (evs : list event) : option Reactor :=
  match evs with
  | [] => Some s
  | ev :: evs' =>
      match step s ev with
      | Some s' => run s' evs'
      | None => None
      end
  end.

Definition reachable (s : Reactor) : Prop := exists evs, run boot evs = Some s.

Definition is_datagram (ev : event) : bool :=
  match ev with Datagram _ _ _ => true | _ => false end.

(** ** Sample environment and messages *)

(** An environment in which every call returns: every datagram decodes to
    [msg], every module imports, the database hands out handle [7]. *)
Definition nominal (msg : json) : World := {|
  json_loads := fun _ => inr msg;
  sys_modules := fun _ => false;
  import_module := fun _ => None;
  plugin_finalizePlugin := fun _ => None;
  plugin_initializePlugin := fun _ => None;
  plugin_initializeDetector := fun _ _ => None;
  plugin_initializeSession := fun _ _ => None;
  plugin_finalizeSession := fun _ _ => None;
  plugin_acquireSpectrum := fun _ _ => inr (JObj {["command" := JStr "spectrum"]});
  database_create := fun _ _ => inr 7%nat;
  database_close := fun _ => None;
  database_insertSpectrum := fun _ _ => None;
  database_getSyncSpectrums := fun _ _ _ => inr [];
  statvfs_root := (4096, 1000)%Z;
  gps_position := ∅;
  gps_velocity := ∅;
  gps_time := JStr "2016-01-01T00:00:00Z";
  builtin_str := fun _ => "?";
  builtin_str_addr := fun _ => "('10.0.0.2', 5000)";
  unicode_encode_error := fun _ => "'ascii' codec can't encode character";
  builtin_int := fun _ => inr 0%Z;
  builtin_list := fun _ => inr []
|}.

(** The same, except that no plugin module can be imported. *)
Definition no_plugin (msg : json) : World := {|
  json_loads := json_loads (nominal msg);
  sys_modules := sys_modules (nominal msg);
  import_module := fun _ => Some (ImportError "No module named plugin");
  plugin_finalizePlugin := plugin_finalizePlugin (nominal msg);
  plugin_initializePlugin := plugin_initializePlugin (nominal msg);
  plugin_initializeDetector := plugin_initializeDetector (nominal msg);
  plugin_initializeSession := plugin_initializeSession (nominal msg);
  plugin_finalizeSession := plugin_finalizeSession (nominal msg);
  plugin_acquireSpectrum := plugin_acquireSpectrum (nominal msg);
  database_create := database_create (nominal msg);
  database_close := database_close (nominal msg);
  database_insertSpectrum := database_insertSpectrum (nominal msg);
  database_getSyncSpectrums := database_getSyncSpectrums (nominal msg);
  statvfs_root := statvfs_root (nominal msg);
  gps_position := gps_position (nominal msg);
  gps_velocity := gps_velocity (nominal msg);
  gps_time := gps_time (nominal msg);
  builtin_str := builtin_str (nominal msg);
  builtin_str_addr := builtin_str_addr (nominal msg);
  unicode_encode_error := unicode_encode_error (nominal msg);
  builtin_int := builtin_int (nominal msg);
  builtin_list := builtin_list (nominal msg)
|}.

Definition operator : addr := ("10.0.0.2", 5000%Z).

Definition command (name : string) (fields : gmap string json) : json :=
  JObj (<["command" := JStr name]> fields).

Definition osprey_config : json :=
  JObj (<["plugin_name" := JStr "osprey"]> {["voltage" := JInt 775]}).

Definition detector_config_msg : json :=
  command "detector_config" {["detector_data" := osprey_config]}.

Definition start_session_msg : json :=
  command "start_session" (<["session_name" := JStr "survey1"]> {["livetime" := JInt 1]}).


Definition stop_session_msg : json :=
  command "stop_session" {["session_name" := JStr "survey1"]}.

Definition get_status_msg : json := command "get_status" ∅.

Definition spectrum_msg : json :=
  JObj (<["command" := JStr "spectrum"]> {["channels" := JStr "0 1 2"]}).

(** The response built by [sendResponseWithInfo]. *)
Definition info (command message : string) : json :=
  JObj (<["command" := JStr command]> (<["message" := JStr message]> ∅)).

(** The response sent by the handler of [datagramReceived] that catches
    [e]. *)
Definition error_response (e : exn) : json :=
  match e with
  | ProtocolError command message => info command message
  | ImportError _ => info "error" "Unable to import module"
  | Exception message => info "error" message
  end.

(** The response to [get_status] sent from controller [c]. *)
Definition status_response (w : World) (c : Controller) : json :=
  JObj (<["command" := JStr "get_status_success"]> (
        <["free_disk_space" := JInt (fst (statvfs_root w) * snd (statvfs_root w))]> (
        <["session_running" :=
            JBool (if SessionState.eqb (session_state c) SessionState.Busy
                   then true else false)]> (
        <["spectrum_index" :=
            JInt (if SessionState.eqb (session_state c) SessionState.Ready
                  then 0 else spectrum_index c)]> (
        <["detector_configured" :=
            JBool (if DetectorState.eqb (detector_state c) DetectorState.Warm
                   then true else false)]> ∅))))).

(** [finalizePlugin] of the bound plugin, if any: the first statement of
    [loadPlugin]. *)
Definition finalized (c : Controller) : list effect :=
  match plugin c with Some old => [FinalizePlugin old] | None => [] end.

(** A configured detector and a running session with its first
    acquisition in flight. *)
Definition session_started : list event :=
  [Datagram (nominal detector_config_msg) "" operator;
   Datagram (nominal start_session_msg) "" operator].

Definition active_reactor : Reactor :=
  match run boot session_started with Some s => s | None => boot end.

(** The controller while the sample session runs. *)
Definition active : Controller := controller active_reactor.

(** The controller after the sample [detector_config]. *)
Definition configured : Controller :=
  self (datagramReceived (nominal detector_config_msg) "" operator init).

(** A [detector_config] that names a plugin which does not exist, and one
    that names none. *)
Definition unknown_config : gmap string json := {["plugin_name" := JStr "nosuch"]}.

Definition unknown_config_msg : json :=
  command "detector_config" {["detector_data" := JObj unknown_config]}.

Definition nameless_config : gmap string json := {["voltage" := JInt 775]}.

Definition nameless_config_msg : json :=
  command "detector_config" {["detector_data" := JObj nameless_config]}.

(** An environment like [nominal], except for the outcome of decoding, of
    [initializePlugin], of [finalizePlugin], of the plugin's
    [finalizeSession], of [database.insertSpectrum], and for the rows
    [database.getSyncSpectrums] returns. *)
Definition sample_world (loads : exn + json)
    (initialize_plugin finalize_plugin finalize_session insert : option exn)
    (rows : list (list json)) : World := {|
  json_loads := fun _ => loads;
  sys_modules := sys_modules (nominal JNull);
  import_module := import_module (nominal JNull);
  plugin_finalizePlugin := fun _ => finalize_plugin;
  plugin_initializePlugin := fun _ => initialize_plugin;
  plugin_initializeDetector := plugin_initializeDetector (nominal JNull);
  plugin_initializeSession := plugin_initializeSession (nominal JNull);
  plugin_finalizeSession := fun _ _ => finalize_session;
  plugin_acquireSpectrum := plugin_acquireSpectrum (nominal JNull);
  database_create := database_create (nominal JNull);
  database_close := database_close (nominal JNull);
  database_insertSpectrum := fun _ _ => insert;
  database_getSyncSpectrums := fun _ _ _ => inr rows;
  statvfs_root := statvfs_root (nominal JNull);
  gps_position := {["latitude" := JInt 59]};
  gps_velocity := {["speed" := JInt 3]};
  gps_time := gps_time (nominal JNull);
  builtin_str := builtin_str (nominal JNull);
  builtin_str_addr := builtin_str_addr (nominal JNull);
  unicode_encode_error := unicode_encode_error (nominal JNull);
  builtin_int := builtin_int (nominal JNull);
  builtin_list := builtin_list (nominal JNull)
|}.

(** No datagram decodes. *)
Definition garbled : World :=
  sample_world (inl (Exception "No JSON object could be decoded")) None None None None [].

(** The plugin's [finalizeSession] raises. *)
Definition stuck_plugin (msg : json) : World :=
  sample_world (inr msg) None None (Some (Exception "detector lost")) None [].

(** [database.insertSpectrum] raises. *)
Definition full_disk (msg : json) : World :=
  sample_world (inr msg) None None None (Some (Exception "database or disk is full")) [].

(** [finalizePlugin] raises. *)
Definition broken_plugin : World :=
  sample_world (inr JNull) None (Some (Exception "device busy")) None None [].

(** The database holds [rows]. *)
Definition archive (msg : json) (rows : list (list json)) : World :=
  sample_world (inr msg) None None None None rows.

(** A plugin module that, like [plugin_osprey], defines no
    [initializePlugin]. *)
Definition as_shipped (msg : json) : World :=
  sample_world (inr msg) (Some (AttributeError "module" "initializePlugin"))
    None None None [].

Definition no_command_msg : json := JObj {["session_name" := JStr "survey1"]}.

Definition reboot_msg : json := command "reboot" ∅.

(** The letter e with an acute accent, as its two UTF-8 bytes, and a
    message whose command it is. *)
Definition e_acute : string :=
  String (Ascii.ascii_of_nat 195) (String (Ascii.ascii_of_nat 169) EmptyString).

Definition accented_msg : json := command e_acute ∅.

Definition dump_session_msg : json := command "dump_session" ∅.

Definition other_stop_msg : json :=
  command "stop_session" {["session_name" := JStr "survey2"]}.

Definition sync_session_msg : json :=
  command "sync_session"
    (<["session_name" := JStr "survey1"]>
       (<["indices_list" := JList []]> {["last_index" := JInt 0]})).

(** A row of the 22 columns of a stored spectrum, and one cut short. *)
Definition stored_row (index : Z) : list json :=
  [JInt 1; JInt 1; JStr "survey1"; JInt index] ++ replicate 18 JNull.

Definition short_row : list json := [JInt 1; JInt 1; JStr "survey1"].

Definition other_operator : addr := ("10.0.0.3", 5001%Z).



(** ** Relations kept by every statement of a method

    [R c c' effs] relates the controller before a piece of code to the
    controller after it and to the calls it made.  A relation that holds
    of doing nothing and of one piece after another holds of a whole
    method as soon as it holds of its assignments and calls, whichever
    way the method returns or raises. *)
Definition rel : Type := Controller -> Controller -> list effect -> Prop.

Class Monoidal (R : rel) : Prop := {
  rel_refl : forall c, R c c [];
  rel_trans : forall c c1 c2 e1 e2, R c c1 e1 -> R c1 c2 e2 -> R c c2 (e1 ++ e2)
}.

Definition respects {A} (R : rel) (m : M A) : Prop :=
  forall c, R c (self (m c)) (effects (m c)).

(** Either nothing is handed to the thread pool and [spectrum_state] is
    as before, or one acquisition is, from [Ready], and it is [Busy]
    after. *)
Definition ticks : rel := fun c c' effs =>
  (submitted effs = 0%nat /\ spectrum_state c' = spectrum_state c) \/
  (submitted effs = 1%nat /\ spectrum_state c = SpectrumState.Ready /\
   spectrum_state c' = SpectrumState.Busy).

(** Nothing is handed to the thread pool. *)
Definition quiet : rel := fun _ _ effs => submitted effs = 0%nat.

(** A message that [sendResponse] accepts: a dict with a [command]. *)
Definition has_command (msg : json) : Prop :=
  exists fields v, msg = JObj fields /\ fields !! "command" = Some v.

(** The client address stays, and every message written goes to it and
    has a [command]. *)
Definition addressed : rel := fun c c' effs =>
  client_address c' = client_address c /\
  forall msg to, In (TransportWrite msg to) effs ->
    client_address c = Some to /\ has_command msg.

(** A detector that is configured stays configured, and a plugin that is
    bound stays bound. *)
Definition stays_configured : rel := fun c c' _ =>
  (detector_state c = DetectorState.Warm -> detector_state c' = DetectorState.Warm) /\
  (plugin c <> None -> plugin c' <> None).

(** The looping call runs exactly while the session state is [Busy]. *)
Definition loop_follows_session (c : Controller) : Prop :=
  session_state c = SessionState.Busy <-> session_loop c = Some {| running := true |}.

Definition keeps_loop : rel := fun c c' _ =>
  loop_follows_session c -> loop_follows_session c'.

(** ** The Osprey plugin: configuration of the detector

    [initializeDetector] and [_stabilizeProbe] of [plugin_osprey.py].  The
    device is the environment: what it answers is read from a [Device]
    record, and the calls made on it are collected in order.  The calls of
    the vendor's toolkit are taken to return, and the status it reports to
    be an integer.  [_stabilizeProbe] is called by [initializeDetector]
    only, once the global [detector] is bound. *)

(** The [ParameterCodes] that [_stabilizeProbe] uses. *)
Inductive ParameterCode : Set :=
  | Input_Status
  | Input_Voltage
  | Input_VoltageStatus
  | Input_VoltageRamping
  | Input_CoarseGain
  | Input_FineGain
  | Input_NumberOfChannels
  | Input_LLDmode
  | Input_LLD
  | Input_ULD.

(** The values handed to [setParameter]. *)
Inductive pyval : Type :=
  | PInt (z : Z)
  | PFloat (q : Q)
  | PBool (b : bool).

Inductive device_call : Type :=
  | CreateInstance
  | OpenDevice (source address : string)
  | LockDevice (user password : string) (input : Z)
  | GetParameter (code : ParameterCode) (input : Z)
  | SetParameter (code : ParameterCode) (v : pyval) (input : Z)
  | Sleep (seconds : Q)
  | PrintLine (text : string).

(** [probe_status] is what [getParameter(Input_Status)] returns;
    [ramping k] tells whether the reading numbered [k] of
    [Input_VoltageRamping] is [True]; [py_int] and [py_float] are the
    builtins [int] and [float] on the values of the configuration. *)
Record Device : Type := {
  probe_status : Z;
  ramping : nat -> bool;
  py_int : json -> exn + Z;
  py_float : json -> exn + Q
}.

Definition detector_interface_ip : string := "10.0.1.4".
Definition detector_input : Z := 1.

(** The calls made so far, and the value returned or the exception
    raised. *)
Definition D (A : Type) : Type := list device_call * (exn + A).

Definition dret {A} (a : A) : D A := ([], inr a).

Definition dbind {A B} (m : D A) (k : A -> D B) : D B :=
  match m with
  | (calls, inl e) => (calls, inl e)
  | (calls, inr a) => let (calls', r) := k a in (calls ++ calls', r)
  end.

Definition dlift {A} (x : exn + A) : D A := ([], x).

Definition dcall (c : device_call) : D unit := ([c], inr tt).

(** [while detector.getParameter(Input_VoltageRamping, detector_input) is
    True: time.sleep(.4)], from the reading numbered [k] on; [None] when
    [fuel] readings have not been enough. *)
Fixpoint wait_ramping (dev : Device) (fuel k : nat) : option (list device_call) :=
  match fuel with
  | O => None
  | S fuel' =>
      if ramping dev k then
        match wait_ramping dev fuel' (S k) with
        | Some calls =>
            Some (GetParameter Input_VoltageRamping detector_input :: Sleep (4 # 10) :: calls)
        | None => None
        end
      else Some [GetParameter Input_VoltageRamping detector_input]
  end.

(** The six parameters set at the end of [_stabilizeProbe]. *)
Definition set_gains (dev : Device) (coarse_gain fine_gain num_channels lld uld : json)
    : D unit :=
  dbind (dlift (py_float dev coarse_gain)) (fun c =>
  dbind (dcall (SetParameter Input_CoarseGain (PFloat c) detector_input)) (fun _ =>
  dbind (dlift (py_float dev fine_gain)) (fun f =>
  dbind (dcall (SetParameter Input_FineGain (PFloat f) detector_input)) (fun _ =>
  dbind (dlift (py_int dev num_channels)) (fun n =>
  dbind (dcall (SetParameter Input_NumberOfChannels (PInt n) detector_input)) (fun _ =>
  dbind (dcall (SetParameter Input_LLDmode (PInt 1) detector_input)) (fun _ =>
  dbind (dlift (py_float dev lld)) (fun l =>
  dbind (dcall (SetParameter Input_LLD (PFloat l) detector_input)) (fun _ =>
  dbind (dlift (py_float dev uld)) (fun u =>
  dcall (SetParameter Input_ULD (PFloat u) detector_input))))))))))).

Definition Stabilized_Probe_OK : Z := 0x00100000.

Definition _stabilizeProbe (dev : Device) (fuel : nat)
    (voltage coarse_gain fine_gain num_channels lld uld : json) : option (D unit) :=
  let probe := dcall (GetParameter Input_Status detector_input) in
  if negb (Z.land (probe_status dev) Stabilized_Probe_OK =? Stabilized_Probe_OK)%Z then
    match py_int dev voltage with
    | inl e => Some (dbind probe (fun _ => dlift (inl e)))
    | inr v =>
        match wait_ramping dev fuel 0 with
        | None => None
        | Some waits =>
            Some (dbind probe (fun _ =>
                  dbind (dcall (SetParameter Input_Voltage (PInt v) detector_input)) (fun _ =>
                  dbind (dcall (SetParameter Input_VoltageStatus (PBool true) detector_input))
                    (fun _ =>
                  dbind (dcall (PrintLine "Ramping HVPS...")) (fun _ =>
                  dbind (waits, inr tt) (fun _ =>
                  set_gains dev coarse_gain fine_gain num_channels lld uld))))))
        end
    end
  else
    Some (dbind probe (fun _ => set_gains dev coarse_gain fine_gain num_channels lld uld)).

Definition initializeDetector (dev : Device) (fuel : nat) (config : json) : option (D unit) :=
  let opened :=
    dbind (dcall CreateInstance) (fun _ =>
    dbind (dcall (OpenDevice "" detector_interface_ip)) (fun _ =>
    dcall (LockDevice "administrator" "password" detector_input))) in
  let looked_up :=
    dbind opened (fun _ =>
    dbind (dlift (py_getitem config "voltage")) (fun voltage =>
    dbind (dlift (py_getitem config "coarse_gain")) (fun coarse =>
    dbind (dlift (py_getitem config "fine_gain")) (fun fine =>
    dbind (dlift (py_getitem config "num_channels")) (fun num_channels =>
    dbind (dlift (py_getitem config "lld")) (fun lld =>
    dbind (dlift (py_getitem config "uld")) (fun uld =>
    dret (voltage, coarse, fine, num_channels, lld, uld)))))))) in
  match looked_up with
  | (calls, inl e) => Some (calls, inl e)
  | (calls, inr (voltage, coarse, fine, num_channels, lld, uld)) =>
      match _stabilizeProbe dev fuel voltage coarse fine num_channels lld uld with
      | None => None
      | Some (calls', r) => Some (calls ++ calls', r)
      end
  end.

(** The six calls of [setParameter] that end [_stabilizeProbe]. *)
Definition gains_set (c f l u : Q) (n : Z) : list device_call :=
  [SetParameter Input_CoarseGain (PFloat c) detector_input;
   SetParameter Input_FineGain (PFloat f) detector_input;
   SetParameter Input_NumberOfChannels (PInt n) detector_input;
   SetParameter Input_LLDmode (PInt 1) detector_input;
   SetParameter Input_LLD (PFloat l) detector_input;
   SetParameter Input_ULD (PFloat u) detector_input].

(** Sample conversions, on the numbers of a decoded message. *)
Definition to_int (v : json) : exn + Z :=
  match v with JInt z => inr z | _ => inl (TypeError "int() argument") end.

Definition to_float (v : json) : exn + Q :=
  match v with
  | JInt z => inr (inject_Z z)
  | JFloat q => inr q
  | _ => inl (TypeError "float() argument")
  end.

(** A device whose high voltage is stable, and one whose voltage ramps
    for two readings. *)
Definition stable_device : Device :=
  {| probe_status := 0x00180000; ramping := fun _ => true;
     py_int := to_int; py_float := to_float |}.

Definition cold_device : Device :=
  {| probe_status := 0x00080000; ramping := fun k => (k <? 2)%nat;
     py_int := to_int; py_float := to_float |}.

(** ** Symbolic execution of methods

    A method applied to a controller is brought to head normal form: the
    binds are run until a field of the controller, a call into the
    environment or a lookup in a message decides how to go on.  A field
    is computed from the assignments made so far; a call or a lookup is
    rewritten with what is known of it, or split into its possible
    outcomes. *)

(** [post P r]: the outcome [r] of a method satisfies [P]. *)
Definition post {A} (P : Result A -> Prop) (r : Result A) : Prop := P r.

Ltac head_nf t :=
  eval lazy head beta iota zeta delta
    [datagramReceived handlers try_except bind lift assign get raise ret emit call call_for
     sendResponse sendResponseWithCommand sendResponseWithInfo unshared plugin_method loadPlugin
     startProtocol stopProtocol
     LoopingCall_start LoopingCall_stop sessionTick initializeSession finalizeSession
     startSession stopSession aquireSpectrum handleSpectrumSuccess handleSpectrumFailure
     py_contains py_getitem py_setitem py_concat py_update negb
     SessionState.eqb SpectrumState.eqb DetectorState.eqb
     value self effects] in t.

(** The fields of an updated controller, computed. *)
Ltac fields_nf t :=
  eval cbn [client_address detector_state detector_data session_args session_loop
     session_state spectrum_state spectrum_index spectrum_failures database_connection plugin
     set_client_address set_detector_state set_detector_data set_session_args set_session_loop
     set_session_state set_spectrum_state set_spectrum_index set_spectrum_failures
     set_database_connection set_plugin] in t.

Ltac fields_cbn :=
  cbn [client_address detector_state detector_data session_args session_loop
     session_state spectrum_state spectrum_index spectrum_failures database_connection plugin
     set_client_address set_detector_state set_detector_data set_session_args set_session_loop
     set_session_state set_spectrum_state set_spectrum_index set_spectrum_failures
     set_database_connection set_plugin].

Ltac whnf_goal nf :=
  lazymatch goal with
  | |- post ?P ?x => let t := nf x in change (post P t)
  | |- ?l = ?r => let t := nf l in change (t = r)
  end.

Ltac rewrite_known :=
  first [ rewrite lookup_insert_eq
        | rewrite lookup_insert_ne by discriminate
        | match goal with H : _ = _ |- _ => rewrite H end ].

(** What the head normal form is stuck on: the innermost scrutinee. *)
Ltac head_match t :=
  lazymatch t with
  | match _ with _ => _ end => t
  | ?f _ => head_match f
  end.

Ltac atom_of t :=
  match t with
  | _ => let mt := head_match t in
         lazymatch mt with match ?x with _ => _ end => atom_of x end
  | _ => t
  end.

(** The field the method is stuck on, or the arguments of the call it is
    stuck on, computed. *)
Ltac simpl_atom_in l :=
  let mt := head_match l in
  lazymatch mt with
  | match ?x with _ => _ end =>
      let a := atom_of x in let a' := fields_nf a in progress change a with a'
  end.

Ltac simpl_atom :=
  lazymatch goal with
  | |- post _ ?x => simpl_atom_in x
  | |- ?l = _ => simpl_atom_in l
  end.

Ltac case_on l :=
  let mt := head_match l in
  lazymatch mt with
  | match ?x with _ => _ end => let a := atom_of x in destruct a eqn:?
  end.

Ltac case_stuck :=
  lazymatch goal with
  | |- post _ ?x => case_on x
  | |- ?l = _ => case_on l
  end.

(** All the paths through a method. *)
Ltac exec_paths :=
  repeat (whnf_goal head_nf;
          first [rewrite_known | simpl_atom; try rewrite_known | case_stuck]);
  whnf_goal head_nf; fields_cbn.

(** The fields of the controller are named, so that a field read of an
    updated controller computes. *)
Ltac open_controller c :=
  destruct c as [address dstate config args loop state sstate index failures handle bound];
  cbn [client_address detector_state detector_data session_args session_loop
       session_state spectrum_state spectrum_index spectrum_failures
       database_connection plugin] in *;
  subst.

(** ** Runs, statement by statement *)

Section Run.

Context {A B : Type}.

Lemma ret_run (a : A) (c : Controller) : ret a c = mkResult (inr a) c [].
Proof. reflexivity. Qed.

Lemma raise_run (e : raised) (c : Controller) : @raise A e c = mkResult (inl e) c [].
Proof. reflexivity. Qed.

Lemma get_run (f : Controller -> A) (c : Controller) (v : A) :
  f c = v -> get f c = mkResult (inr v) c [].
Proof. intros <-. reflexivity. Qed.

Lemma lift_inr_run (x : exn + A) (a : A) (c : Controller) :
  x = inr a -> lift x c = mkResult (inr a) c [].
Proof. intros ->. reflexivity. Qed.

Lemma lift_inl_run (x : exn + A) (e : exn) (c : Controller) :
  x = inl e -> lift x c = mkResult (inl e) c [].
Proof. intros ->. reflexivity. Qed.

Lemma call_for_inr_run (ef : effect) (x : exn + A) (a : A) (c : Controller) :
  x = inr a -> call_for ef x c = mkResult (inr a) c [ef].
Proof. intros ->. reflexivity. Qed.

Lemma call_for_inl_run (ef : effect) (x : exn + A) (e : exn) (c : Controller) :
  x = inl e -> call_for ef x c = mkResult (inl e) c [ef].
Proof. intros ->. reflexivity. Qed.

Lemma bind_inr_run (m : M A) (k : A -> M B) (c c1 c2 : Controller) (a : A)
    (v : raised + B) (effs1 effs2 : list effect) :
  m c = mkResult (inr a) c1 effs1 ->
  k a c1 = mkResult v c2 effs2 ->
  bind m k c = mkResult v c2 (effs1 ++ effs2).
Proof. intros Hm Hk. unfold bind. rewrite Hm, Hk. reflexivity. Qed.

Lemma bind_inl_run (m : M A) (k : A -> M B) (c c1 : Controller) (e : raised)
    (effs1 : list effect) :
  m c = mkResult (inl e) c1 effs1 ->
  bind m k c = mkResult (inl e) c1 effs1.
Proof. intros Hm. unfold bind. rewrite Hm. reflexivity. Qed.

Lemma if_true_run (b : bool) (x y : M A) (c : Controller) (r : Result A) :
  b = true -> x c = r -> (if b then x else y) c = r.
Proof. intros -> H. exact H. Qed.

Lemma if_false_run (b : bool) (x y : M A) (c : Controller) (r : Result A) :
  b = false -> y c = r -> (if b then x else y) c = r.
Proof. intros -> H. exact H. Qed.

End Run.

Lemma assign_run (set : Controller -> Controller) (c c' : Controller) :
  set c = c' -> assign set c = mkResult (inr tt) c' [].
Proof. intros <-. reflexivity. Qed.

Lemma emit_run (ef : effect) (c : Controller) : emit ef c = mkResult (inr tt) c [ef].
Proof. reflexivity. Qed.

Lemma call_none_run (ef : effect) (o : option exn) (c : Controller) :
  o = None -> call ef o c = mkResult (inr tt) c [ef].
Proof. intros ->. reflexivity. Qed.

Lemma call_some_run (ef : effect) (o : option exn) (e : exn) (c : Controller) :
  o = Some e -> call ef o c = mkResult (inl e) c [ef].
Proof. intros ->. reflexivity. Qed.

Lemma try_inr_run (body : M unit) (handler : raised -> M unit) (c c1 : Controller)
    (u : unit) (effs1 : list effect) :
  body c = mkResult (inr u) c1 effs1 ->
  try_except body handler c = mkResult (inr u) c1 effs1.
Proof. intros Hm. unfold try_except. rewrite Hm. reflexivity. Qed.

Lemma try_inl_run (body : M unit) (handler : raised -> M unit) (c c1 c2 : Controller)
    (e : raised) (v : raised + unit) (effs1 effs2 : list effect) :
  body c = mkResult (inl e) c1 effs1 ->
  handler e c1 = mkResult v c2 effs2 ->
  try_except body handler c = mkResult v c2 (effs1 ++ effs2).
Proof. intros Hm Hk. unfold try_except. rewrite Hm, Hk. reflexivity. Qed.

(** A value, computed as far as what is known of the environment and of
    the messages decides it. *)
Ltac value_cbn :=
  cbn [py_contains py_getitem py_setitem py_concat py_update py_eq py_number
       negb andb fst snd String.eqb Ascii.eqb Bool.eqb
       SessionState.eqb SpectrumState.eqb DetectorState.eqb
       client_address detector_state detector_data session_args session_loop
       session_state spectrum_state spectrum_index spectrum_failures database_connection plugin
       set_client_address set_detector_state set_detector_data set_session_args set_session_loop
       set_session_state set_spectrum_state set_spectrum_index set_spectrum_failures
       set_database_connection set_plugin unshared].

Ltac eval_value := repeat (value_cbn; rewrite_known); value_cbn; reflexivity.

(** The controller after an assignment, field by field. *)
Ltac eval_state :=
  cbv beta iota delta
    [client_address detector_state detector_data session_args session_loop
     session_state spectrum_state spectrum_index spectrum_failures database_connection plugin
     set_client_address set_detector_state set_detector_data set_session_args set_session_loop
     set_session_state set_spectrum_state set_spectrum_index set_spectrum_failures
     set_database_connection set_plugin unshared];
  reflexivity.

Ltac head_of t :=
  lazymatch t with
  | ?f _ => head_of f
  | _ => t
  end.

Ltac head_beta_iota :=
  lazymatch goal with
  | |- ?l = ?r => let l' := eval lazy head beta iota zeta in l in progress change (l' = r)
  end.

(** [run] proves [m c = ?r] and finds [?r]: the outcome of the method [m]
    on the controller [c], along the one path that what is known
    decides. *)
Ltac run :=
  lazymatch goal with
  | |- bind ?m ?k ?c = _ =>
      let H := fresh "Hrun" in
      eassert (m c = _) as H by run;
      lazymatch type of H with
      | _ = mkResult (inr _) _ _ =>
          eapply bind_inr_run; [exact H | clear H; try head_beta_iota; run]
      | _ = mkResult (inl _) _ _ =>
          eapply bind_inl_run; exact H
      end
  | |- try_except ?body ?handler ?c = _ =>
      let H := fresh "Hrun" in
      eassert (body c = _) as H by run;
      lazymatch type of H with
      | _ = mkResult (inr _) _ _ =>
          eapply try_inr_run; exact H
      | _ = mkResult (inl _) _ _ =>
          eapply try_inl_run; [exact H | clear H; try head_beta_iota; run]
      end
  | |- ret _ _ = _ => apply ret_run
  | |- raise _ _ = _ => apply raise_run
  | |- emit _ _ = _ => apply emit_run
  | |- get _ _ = _ => apply get_run; eval_value
  | |- assign _ _ = _ => apply assign_run; eval_state
  | |- lift ?x ?c = _ =>
      let H := fresh "Hval" in
      eassert (x = _) as H by eval_value;
      lazymatch type of H with
      | _ = inr _ => eapply lift_inr_run; exact H
      | _ = inl _ => eapply lift_inl_run; exact H
      end
  | |- call ?ef ?o ?c = _ =>
      let H := fresh "Hval" in
      eassert (o = _) as H by eval_value;
      lazymatch type of H with
      | _ = None => eapply call_none_run; exact H
      | _ = Some _ => eapply call_some_run; exact H
      end
  | |- call_for ?ef ?x ?c = _ =>
      let H := fresh "Hval" in
      eassert (x = _) as H by eval_value;
      lazymatch type of H with
      | _ = inr _ => eapply call_for_inr_run; exact H
      | _ = inl _ => eapply call_for_inl_run; exact H
      end
  | |- (if ?b then _ else _) ?c = _ =>
      let H := fresh "Hval" in
      eassert (b = _) as H by eval_value;
      lazymatch type of H with
      | _ = true => eapply if_true_run; [exact H | clear H; run]
      | _ = false => eapply if_false_run; [exact H | clear H; run]
      end
  | |- (match ?x with _ => _ end) ?c = _ =>
      first
        [ head_beta_iota
        | let H := fresh "Hval" in
          eassert (x = _) as H
            by (cbv delta [KeyError TypeError IndexError AssertionError AttributeError];
                eval_value);
          rewrite H; clear H; try head_beta_iota ];
      run
  | |- ?l = _ =>
      first
        [ head_beta_iota
        | let h := head_of l in unfold h ];
      run
  end.

(** [runs] proves [m c = r] for a given [r]. *)
Ltac runs := etransitivity; [run | reflexivity].

(** ** Exceptions built from unicode texts *)

Lemma is_ascii_app (s t : string) : is_ascii (s +:+ t) = is_ascii s && is_ascii t.
Proof.
  induction s as [|a s IH]; [reflexivity|].
  change (is_ascii (String a s +:+ t)) with ((Ascii.nat_of_ascii a <? 128)%nat && is_ascii (s +:+ t)).
  rewrite IH. apply andb_assoc.
Qed.

Lemma Exception_unicode_ascii (text : string) :
  is_ascii text = true -> Exception_unicode text = Printable (Exception text).
Proof. intros H. unfold Exception_unicode. rewrite H. reflexivity. Qed.

Lemma Exception_unicode_other (text : string) :
  is_ascii text = false -> Exception_unicode text = Unprintable text.
Proof. intros H. unfold Exception_unicode. rewrite H. reflexivity. Qed.

Lemma unknown_command_ascii (name : string) :
  is_ascii ("Unknown command: " +:+ name) = is_ascii name.
Proof. rewrite is_ascii_app. reflexivity. Qed.

(** ** Relations kept by methods *)

Section Respects.

Context (R : rel) `{!Monoidal R}.

Lemma respects_ret {A} (a : A) : respects R (ret a).
Proof. intros c. apply rel_refl. Qed.

Lemma respects_raise {A} (e : raised) : respects R (@raise A e).
Proof. intros c. apply rel_refl. Qed.

Lemma respects_get {A} (f : Controller -> A) : respects R (get f).
Proof. intros c. apply rel_refl. Qed.

Lemma respects_lift {A} (r : exn + A) : respects R (lift r).
Proof. destruct r; [apply respects_raise | apply respects_ret]. Qed.

Lemma respects_bind {A B} (m : M A) (k : A -> M B) :
  respects R m -> (forall a, respects R (k a)) -> respects R (bind m k).
Proof.
  intros Hm Hk c. unfold bind. specialize (Hm c).
  destruct (m c) as [[e|a] c1 effs1]; cbn [self effects] in *; [exact Hm|].
  specialize (Hk a c1).
  destruct (k a c1) as [v c2 effs2]; cbn [self effects] in *.
  eapply rel_trans; eassumption.
Qed.

Lemma respects_try_except (body : M unit) (handler : raised -> M unit) :
  respects R body -> (forall e, respects R (handler e)) ->
  respects R (try_except body handler).
Proof.
  intros Hm Hk c. unfold try_except. specialize (Hm c).
  destruct (body c) as [[e|a] c1 effs1]; cbn [self effects] in *; [|exact Hm].
  specialize (Hk e c1).
  destruct (handler e c1) as [v c2 effs2]; cbn [self effects] in *.
  eapply rel_trans; eassumption.
Qed.

Lemma respects_for_each {A} (l : list A) (body : A -> M unit) :
  (forall x, respects R (body x)) -> respects R (for_each l body).
Proof.
  intros Hbody. induction l as [|x l IH]; [apply respects_ret|].
  cbn [for_each]. apply respects_bind; [apply Hbody | intros _; exact IH].
Qed.

Lemma respects_assign (set : Controller -> Controller) :
  (forall c, R c (set c) []) -> respects R (assign set).
Proof. intros H c. apply H. Qed.

Lemma respects_emit (e : effect) :
  (forall c, R c c [e]) -> respects R (emit e).
Proof. intros H c. apply H. Qed.

Lemma respects_call (e : effect) (outcome : option exn) :
  (forall c, R c c [e]) -> respects R (call e outcome).
Proof.
  intros H. unfold call. apply respects_bind; [apply respects_emit, H|].
  intros _. destruct outcome; [apply respects_raise | apply respects_ret].
Qed.

Lemma respects_call_for {A} (e : effect) (outcome : exn + A) :
  (forall c, R c c [e]) -> respects R (call_for e outcome).
Proof.
  intros H. unfold call_for. apply respects_bind; [apply respects_emit, H|].
  intros _. apply respects_lift.
Qed.

End Respects.

(** One step through the structure of a method: [known] closes the calls
    of the methods proved apart, [leaf] the assignments and the calls into
    the environment; any other method is unfolded. *)
Ltac respects_step known leaf :=
  first
  [ known
  | lazymatch goal with
    | |- respects ?R (bind _ _) => apply (respects_bind R); [| intros ?]
    | |- respects ?R (try_except _ _) => apply (respects_try_except R); [| intros ?]
    | |- respects ?R (for_each _ _) => apply (respects_for_each R); intros ?
    | |- respects ?R (ret _) => apply (respects_ret R)
    | |- respects ?R (raise _) => apply (respects_raise R)
    | |- respects ?R (get _) => apply (respects_get R)
    | |- respects ?R (lift _) => apply (respects_lift R)
    | |- respects ?R (call _ _) => apply (respects_call R); intros ?; leaf
    | |- respects ?R (call_for _ _) => apply (respects_call_for R); intros ?; leaf
    | |- respects ?R (assign _) => apply (respects_assign R); intros ?; leaf
    | |- respects ?R (emit _) => apply (respects_emit R); intros ?; leaf
    | |- respects _ (if ?b then _ else _) => destruct b
    | |- respects _ (match ?x with _ => _ end) => destruct x
    | |- respects _ (let _ := _ in _) => cbv zeta
    | |- respects _ ?m => let h := head_of m in unfold h
    end ].

Ltac respects_all known leaf := repeat respects_step known leaf.

#[export] Instance ticks_monoidal : Monoidal ticks.
Proof.
  split.
  - intros c. left. split; reflexivity.
  - intros c c1 c2 e1 e2 H1 H2. unfold ticks, submitted in *.
    rewrite filter_app, length_app.
    destruct H1 as [[? ?]|[? [? ?]]], H2 as [[? ?]|[? [? ?]]];
      try (left; split; [lia | congruence]);
      try (right; split; [lia | split; congruence]).
    congruence.
Qed.

#[export] Instance quiet_monoidal : Monoidal quiet.
Proof.
  split.
  - intros c. reflexivity.
  - intros c c1 c2 e1 e2 H1 H2. unfold quiet, submitted in *.
    rewrite filter_app, length_app. lia.
Qed.

Lemma sessionTick_ticks : respects ticks sessionTick.
Proof.
  intros c. open_controller c. destruct sstate.
  - right. repeat split.
  - left. repeat split.
Qed.

Lemma datagramReceived_ticks (w : World) (data : string) (from : addr) :
  respects ticks (datagramReceived w data from).
Proof.
  respects_all ltac:(apply sessionTick_ticks) ltac:(left; split; reflexivity).
Qed.

Lemma handleSpectrumSuccess_quiet (w : World) (msg : json) :
  respects quiet (handleSpectrumSuccess w msg).
Proof. respects_all fail ltac:(reflexivity). Qed.

Lemma handleSpectrumFailure_quiet (w : World) (err : string) :
  respects quiet (handleSpectrumFailure w err).
Proof. respects_all fail ltac:(reflexivity). Qed.

(** ** Runs of the dispatcher *)

Section Dispatcher.

Variables (w : World) (data : string) (from : addr).

(** A datagram that [json.loads] rejects. *)
Lemma undecodable_run (e : exn) (c : Controller) :
  json_loads w data = inl e ->
  datagramReceived w data from c =
    mkResult (inr tt) (set_client_address (Some from) c)
      [TransportWrite (error_response e) from].
Proof. intros Hdec. open_controller c. destruct e; runs. Qed.

Variable m : gmap string json.
Hypothesis decoded : json_loads w data = inr (JObj m).

(** A [start_session] received while a session is active is answered with
    [start_session_busy] and changes nothing but the client address. *)
Lemma start_session_busy_run (c : Controller) :
  m !! "command" = Some (JStr "start_session") ->
  session_state c = SessionState.Busy ->
  datagramReceived w data from c =
    mkResult (inr tt) (set_client_address (Some from) c)
      [TransportWrite
         (info "start_session_busy" "Start session failed, session is active") from].
Proof. intros Hcmd Hbusy. open_controller c. runs. Qed.

Lemma get_status_run (c : Controller) :
  m !! "command" = Some (JStr "get_status") ->
  datagramReceived w data from c =
    mkResult (inr tt) (set_client_address (Some from) c)
      [TransportWrite (status_response w c) from].
Proof. intros Hcmd. open_controller c. runs. Qed.

(** A [detector_config] whose [detector_data] has no [plugin_name]. *)
Lemma detector_config_no_name_run (c : Controller) (cfg : gmap string json) :
  m !! "command" = Some (JStr "detector_config") ->
  m !! "detector_data" = Some (JObj cfg) ->
  cfg !! "plugin_name" = None ->
  session_state c = SessionState.Ready ->
  datagramReceived w data from c =
    mkResult (inr tt)
      (set_detector_data (JObj cfg) (set_client_address (Some from) c))
      [TransportWrite
         (info "detector_config_error" "Detector config failed, plugin_name missing")
         from].
Proof. intros Hcmd Hcfg Hname Hidle. open_controller c. runs. Qed.

(** A [detector_config] naming a module that is not loaded and whose
    import raises [e]. *)
Lemma detector_config_unresolved_run (c : Controller) (cfg : gmap string json)
    (name : string) (e : exn) :
  m !! "command" = Some (JStr "detector_config") ->
  m !! "detector_data" = Some (JObj cfg) ->
  cfg !! "plugin_name" = Some (JStr name) ->
  session_state c = SessionState.Ready ->
  (forall old, plugin c = Some old -> plugin_finalizePlugin w old = None) ->
  sys_modules w ("plugin_" +:+ name) = false ->
  import_module w ("plugin_" +:+ name) = Some e ->
  datagramReceived w data from c =
    mkResult (inr tt)
      (set_detector_data (JObj cfg) (set_client_address (Some from) c))
      (finalized c ++
       [ImportModule ("plugin_" +:+ name); TransportWrite (error_response e) from]).
Proof.
  intros Hcmd Hcfg Hname Hidle Hfin Hmod Himp. open_controller c.
  destruct bound as [old|].
  - pose proof (Hfin old eq_refl) as Hold. clear Hfin.
    destruct e; runs.
  - clear Hfin. destruct e; runs.
Qed.



Lemma no_command_run (c : Controller) :
  m !! "command" = None ->
  datagramReceived w data from c =
    mkResult (inr tt) (set_client_address (Some from) c)
      [TransportWrite (info "error" "Message has no command") from].
Proof. intros Hcmd. open_controller c. runs. Qed.

Lemma unknown_command_run (name : string) (c : Controller) :
  m !! "command" = Some (JStr name) ->
  (name =? "detector_config")%string = false ->
  (name =? "start_session")%string = false ->
  (name =? "stop_session")%string = false ->
  (name =? "dump_session")%string = false ->
  (name =? "get_status")%string = false ->
  (name =? "sync_session")%string = false ->
  is_ascii name = true ->
  datagramReceived w data from c =
    mkResult (inr tt) (set_client_address (Some from) c)
      [TransportWrite (info "error" ("Unknown command: " +:+ name)) from].
Proof.
  intros Hcmd H1 H2 H3 H4 H5 H6 Hascii. open_controller c.
  rewrite <- unknown_command_ascii in Hascii.
  apply Exception_unicode_ascii in Hascii.
  runs.
Qed.

(** An unknown command that ASCII cannot encode is not answered: taking
    [str(e)] in the handler raises. *)
Lemma unknown_command_unicode_run (name : string) (c : Controller) :
  m !! "command" = Some (JStr name) ->
  (name =? "detector_config")%string = false ->
  (name =? "start_session")%string = false ->
  (name =? "stop_session")%string = false ->
  (name =? "dump_session")%string = false ->
  (name =? "get_status")%string = false ->
  (name =? "sync_session")%string = false ->
  is_ascii name = false ->
  datagramReceived w data from c =
    mkResult (inl (UnicodeEncodeError w ("Unknown command: " +:+ name)))
      (set_client_address (Some from) c) [].
Proof.
  intros Hcmd H1 H2 H3 H4 H5 H6 Hascii. open_controller c.
  rewrite <- unknown_command_ascii in Hascii.
  apply Exception_unicode_other in Hascii.
  runs.
Qed.

Lemma detector_config_busy_run (c : Controller) :
  m !! "command" = Some (JStr "detector_config") ->
  session_state c = SessionState.Busy ->
  datagramReceived w data from c =
    mkResult (inr tt) (set_client_address (Some from) c)
      [TransportWrite
         (info "detector_config_busy" "Detector config failed, session is active") from].
Proof. intros Hcmd Hbusy. open_controller c. runs. Qed.

(** A [detector_config] all of whose calls return. *)
Lemma detector_config_run (c : Controller) (cfg : gmap string json) (name : string) :
  m !! "command" = Some (JStr "detector_config") ->
  m !! "detector_data" = Some (JObj cfg) ->
  cfg !! "plugin_name" = Some (JStr name) ->
  session_state c = SessionState.Ready ->
  (forall old, plugin c = Some old -> plugin_finalizePlugin w old = None) ->
  (sys_modules w ("plugin_" +:+ name) = false ->
   import_module w ("plugin_" +:+ name) = None) ->
  plugin_initializePlugin w ("plugin_" +:+ name) = None ->
  plugin_initializeDetector w ("plugin_" +:+ name) (JObj cfg) = None ->
  datagramReceived w data from c =
    mkResult (inr tt)
      (set_detector_data (JObj (<["command" := JStr "detector_config_success"]> cfg))
         (set_detector_state DetectorState.Warm
            (set_plugin (Some ("plugin_" +:+ name))
               (set_detector_data (JObj cfg) (set_client_address (Some from) c)))))
      (finalized c ++
       (if sys_modules w ("plugin_" +:+ name) then []
        else [ImportModule ("plugin_" +:+ name)]) ++
       [InitializePlugin ("plugin_" +:+ name);
        InitializeDetector ("plugin_" +:+ name) (JObj cfg);
        TransportWrite (JObj (<["command" := JStr "detector_config_success"]> cfg)) from]).
Proof.
  intros Hcmd Hcfg Hname Hidle Hfin Himp Hinit Hdet. open_controller c.
  destruct bound as [old|]; [pose proof (Hfin old eq_refl) as Hold|]; clear Hfin;
    (destruct (sys_modules w ("plugin_" +:+ name)) eqn:Hmod;
       [clear Himp | pose proof (Himp eq_refl) as Himp']);
    runs.
Qed.

(** A [start_session] all of whose calls return. *)
Lemma start_session_run (c : Controller) (name p : string) (h : conn) :
  m !! "command" = Some (JStr "start_session") ->
  m !! "session_name" = Some (JStr name) ->
  session_state c = SessionState.Ready ->
  spectrum_state c = SpectrumState.Ready ->
  plugin c = Some p ->
  database_create w (detector_data c) (JObj m) = inr h ->
  plugin_initializeSession w p (JObj m) = None ->
  datagramReceived w data from c =
    mkResult (inr tt)
      (set_session_args (JObj (<["command" := JStr "start_session_success"]> m))
         (set_session_state SessionState.Busy
            (set_spectrum_state SpectrumState.Busy
               (set_session_loop (Some {| running := true |})
                  (set_database_connection (Some h)
                     (set_spectrum_failures 0 (set_spectrum_index 0
                        (set_session_args (JObj m)
                           (set_client_address (Some from) c)))))))))
      [DatabaseCreate (detector_data c) (JObj m);
       InitializeSession p (JObj m);
       LoopStart;
       DeferToThread;
       TransportWrite (JObj (<["command" := JStr "start_session_success"]> m)) from].
Proof.
  intros Hcmd Hname Hidle Hready Hp Hdb Hinit. open_controller c.
  runs.
Qed.


Lemma stop_session_idle_run (c : Controller) :
  m !! "command" = Some (JStr "stop_session") ->
  session_state c = SessionState.Ready ->
  datagramReceived w data from c =
    mkResult (inr tt) (set_client_address (Some from) c)
      [TransportWrite
         (info "stop_session_noexist" "Stop session failed, no session active") from].
Proof. intros Hcmd Hidle. open_controller c. runs. Qed.

Lemma stop_session_wrongname_run (c : Controller) (held : gmap string json)
    (current given : json) :
  m !! "command" = Some (JStr "stop_session") ->
  session_state c = SessionState.Busy ->
  session_args c = JObj held ->
  held !! "session_name" = Some current ->
  m !! "session_name" = Some given ->
  py_eq current given = false ->
  datagramReceived w data from c =
    mkResult (inr tt) (set_client_address (Some from) c)
      [TransportWrite
         (info "stop_session_wrongname" "Stop session failed, wrong session name") from].
Proof.
  intros Hcmd Hbusy Hargs Hcur Hgiven Hneq. open_controller c.
  runs.
Qed.

(** A [stop_session] all of whose calls return. *)
Lemma stop_session_run (c : Controller) (held : gmap string json)
    (current given : json) (p : string) :
  m !! "command" = Some (JStr "stop_session") ->
  session_state c = SessionState.Busy ->
  session_args c = JObj held ->
  held !! "session_name" = Some current ->
  m !! "session_name" = Some given ->
  py_eq current given = true ->
  session_loop c = Some {| running := true |} ->
  plugin c = Some p ->
  plugin_finalizeSession w p (JObj m) = None ->
  database_close w (database_connection c) = None ->
  datagramReceived w data from c =
    mkResult (inr tt)
      (set_database_connection None
         (set_session_state SessionState.Ready
            (set_session_loop (Some {| running := false |})
               (set_client_address (Some from) c))))
      [LoopStop; FinalizeSession p (JObj m); DatabaseClose (database_connection c);
       TransportWrite (JObj (<["command" := JStr "stop_session_success"]> m)) from].
Proof.
  intros Hcmd Hbusy Hargs Hcur Hgiven Heq Hloop Hp Hfin Hclose. open_controller c.
  runs.
Qed.

(** A [stop_session] for which the plugin's [finalizeSession] raises. *)
Lemma stop_session_unfinalized_run (c : Controller) (held : gmap string json)
    (current given : json) (p : string) (e : exn) :
  m !! "command" = Some (JStr "stop_session") ->
  session_state c = SessionState.Busy ->
  session_args c = JObj held ->
  held !! "session_name" = Some current ->
  m !! "session_name" = Some given ->
  py_eq current given = true ->
  session_loop c = Some {| running := true |} ->
  plugin c = Some p ->
  plugin_finalizeSession w p (JObj m) = Some e ->
  datagramReceived w data from c =
    mkResult (inr tt)
      (set_session_state SessionState.Ready
         (set_session_loop (Some {| running := false |})
            (set_client_address (Some from) c)))
      [LoopStop; FinalizeSession p (JObj m); TransportWrite (error_response e) from].
Proof.
  intros Hcmd Hbusy Hargs Hcur Hgiven Heq Hloop Hp Hfin. open_controller c.
  destruct e; runs.
Qed.

Lemma dump_session_idle_run (c : Controller) :
  m !! "command" = Some (JStr "dump_session") ->
  session_state c = SessionState.Ready ->
  datagramReceived w data from c =
    mkResult (inr tt) (set_client_address (Some from) c)
      [TransportWrite
         (info "dump_session_none" "Dump session failed, no session active") from].
Proof. intros Hcmd Hidle. open_controller c. runs. Qed.

Lemma dump_session_run (c : Controller) :
  m !! "command" = Some (JStr "dump_session") ->
  session_state c = SessionState.Busy ->
  datagramReceived w data from c =
    mkResult (inr tt) (set_client_address (Some from) c)
      [TransportWrite
         (JObj (<["command" := JStr "dump_session_success"]>
                  (<["message" :=
                       JStr ("dumping session to " +:+ builtin_str_addr w (Some from))]> m)))
         from].
Proof. intros Hcmd Hbusy. open_controller c. runs. Qed.

End Dispatcher.

(** ** Runs of the scheduler *)

Section Scheduler.

Variable w : World.

(** [handleSpectrumSuccess] never assigns [spectrum_failures]. *)
Lemma handleSpectrumSuccess_failures (msg : json) (c : Controller) :
  spectrum_failures (self (handleSpectrumSuccess w msg c)) = spectrum_failures c.
Proof.
  change (post (fun r => spectrum_failures (self r) = spectrum_failures c)
            (handleSpectrumSuccess w msg c)).
  exec_paths; reflexivity.
Qed.

(** [handleSpectrumFailure] adds one to [spectrum_failures], whatever
    happens next. *)
Lemma handleSpectrumFailure_failures (err : string) (c : Controller) :
  spectrum_failures (self (handleSpectrumFailure w err c)) = (spectrum_failures c + 1)%Z.
Proof.
  change (post (fun r => spectrum_failures (self r) = (spectrum_failures c + 1)%Z)
            (handleSpectrumFailure w err c)).
  exec_paths; reflexivity.
Qed.

Lemma sessionTick_ready_run (c : Controller) :
  spectrum_state c = SpectrumState.Ready ->
  sessionTick c = mkResult (inr tt) (set_spectrum_state SpectrumState.Busy c) [DeferToThread].
Proof. intros H. open_controller c. runs. Qed.

Lemma sessionTick_busy_run (c : Controller) :
  spectrum_state c = SpectrumState.Busy ->
  sessionTick c = mkResult (inr tt) c [].
Proof. intros H. open_controller c. runs. Qed.


(** A failure below the threshold. *)
Lemma handleSpectrumFailure_below_run (err : string) (to : addr) (c : Controller) :
  client_address c = Some to ->
  (3 <=? spectrum_failures c + 1)%Z = false ->
  handleSpectrumFailure w err c =
    mkResult (inr tt)
      (set_spectrum_state SpectrumState.Ready
         (set_spectrum_failures (spectrum_failures c + 1) c))
      [TransportWrite (info "error" err) to].
Proof. intros Hto Hlow. open_controller c. runs. Qed.

(** The failure that reaches the threshold while the session runs. *)
Lemma handleSpectrumFailure_escalate_run (err : string) (to : addr) (p : string)
    (c : Controller) :
  client_address c = Some to ->
  (3 <=? spectrum_failures c + 1)%Z = true ->
  session_loop c = Some {| running := true |} ->
  plugin c = Some p ->
  plugin_finalizeSession w p (session_args c) = None ->
  database_close w (database_connection c) = None ->
  handleSpectrumFailure w err c =
    mkResult (inr tt)
      (set_spectrum_state SpectrumState.Ready
         (set_database_connection None
            (set_session_state SessionState.Ready
               (set_session_loop (Some {| running := false |})
                  (set_spectrum_failures (spectrum_failures c + 1) c)))))
      [TransportWrite (info "error" err) to;
       LoopStop;
       FinalizeSession p (session_args c);
       DatabaseClose (database_connection c);
       TransportWrite
         (info "error" "Acquiring spectrum has failed 3 times, stopping session") to].
Proof. intros Hto Hhigh Hloop Hp Hfin Hclose. open_controller c. runs. Qed.

End Scheduler.

(** ** Steps of the reactor *)

Lemma step_tick_ready (s : Reactor) :
  session_loop (controller s) = Some {| running := true |} ->
  spectrum_state (controller s) = SpectrumState.Ready ->
  step s Tick =
    Some {| controller := set_spectrum_state SpectrumState.Busy (controller s);
            in_flight := in_flight s + 1;
            trace := trace s ++ [DeferToThread] |}.
Proof.
  intros Hloop Hready. unfold step. rewrite Hloop.
  rewrite (sessionTick_ready_run _ Hready). reflexivity.
Qed.

Lemma step_tick_busy (s : Reactor) :
  session_loop (controller s) = Some {| running := true |} ->
  spectrum_state (controller s) = SpectrumState.Busy ->
  step s Tick =
    Some {| controller := controller s; in_flight := in_flight s + 0;
            trace := trace s ++ [] |}.
Proof.
  intros Hloop Hbusy. unfold step. rewrite Hloop.
  rewrite (sessionTick_busy_run _ Hbusy). reflexivity.
Qed.

Lemma step_failed_below (w : World) (err : string) (to : addr) (n : nat) (s : Reactor) :
  in_flight s = S n ->
  client_address (controller s) = Some to ->
  (3 <=? spectrum_failures (controller s) + 1)%Z = false ->
  step s (AcquireFailed w err) =
    Some {| controller :=
              set_spectrum_state SpectrumState.Ready
                (set_spectrum_failures (spectrum_failures (controller s) + 1) (controller s));
            in_flight := n + 0;
            trace := trace s ++ [TransportWrite (info "error" err) to] |}.
Proof.
  intros Hn Hto Hlow. unfold step. rewrite Hn.
  rewrite (handleSpectrumFailure_below_run w err to _ Hto Hlow). reflexivity.
Qed.

Lemma step_failed_escalate (w : World) (err : string) (to : addr) (p : string) (n : nat)
    (s : Reactor) :
  in_flight s = S n ->
  client_address (controller s) = Some to ->
  (3 <=? spectrum_failures (controller s) + 1)%Z = true ->
  session_loop (controller s) = Some {| running := true |} ->
  plugin (controller s) = Some p ->
  plugin_finalizeSession w p (session_args (controller s)) = None ->
  database_close w (database_connection (controller s)) = None ->
  step s (AcquireFailed w err) =
    Some {| controller :=
              set_spectrum_state SpectrumState.Ready
                (set_database_connection None
                   (set_session_state SessionState.Ready
                      (set_session_loop (Some {| running := false |})
                         (set_spectrum_failures (spectrum_failures (controller s) + 1)
                            (controller s)))));
            in_flight := n + 0;
            trace := trace s ++
              [TransportWrite (info "error" err) to;
               LoopStop;
               FinalizeSession p (session_args (controller s));
               DatabaseClose (database_connection (controller s));
               TransportWrite
                 (info "error" "Acquiring spectrum has failed 3 times, stopping session")
                 to] |}.
Proof.
  intros Hn Hto Hhigh Hloop Hp Hfin Hclose. unfold step. rewrite Hn.
  rewrite (handleSpectrumFailure_escalate_run w err to p _ Hto Hhigh Hloop Hp Hfin Hclose).
  reflexivity.
Qed.

(** The state of the reactor between events: at most one acquisition is
    in flight, and [spectrum_state] is [Busy] while it is. *)
Lemma step_in_flight (s s' : Reactor) (ev : event) :
  (in_flight s <= 1)%nat ->
  (in_flight s = 1%nat -> spectrum_state (controller s) = SpectrumState.Busy) ->
  step s ev = Some s' ->
  (in_flight s' <= 1)%nat /\
  (in_flight s' = 1%nat -> spectrum_state (controller s') = SpectrumState.Busy).
Proof.
  intros Hle Hbusy Hstep.
  assert (Hticks : forall A (r : Result A),
             ticks (controller s) (self r) (effects r) ->
             s' = after s (in_flight s) r ->
             (in_flight s' <= 1)%nat /\
             (in_flight s' = 1%nat -> spectrum_state (controller s') = SpectrumState.Busy)).
  { intros A r Ht ->. unfold after; cbn [in_flight controller].
    destruct Ht as [[H0 Hsame]|[H1 [Hready Hnow]]].
    - rewrite H0, Hsame. split; [lia|]. intros H. apply Hbusy. lia.
    - rewrite H1. destruct (in_flight s) as [|[|k]]; [| |lia].
      + split; [lia|]. intros _. exact Hnow.
      + rewrite (Hbusy eq_refl) in Hready. discriminate. }
  assert (Hquiet : forall A (r : Result A) n,
             in_flight s = S n ->
             quiet (controller s) (self r) (effects r) ->
             s' = after s n r ->
             (in_flight s' <= 1)%nat /\
             (in_flight s' = 1%nat -> spectrum_state (controller s') = SpectrumState.Busy)).
  { intros A r n Hn Hq ->. unfold after; cbn [in_flight controller].
    unfold quiet in Hq. rewrite Hq. split; lia. }
  destruct ev as [w data from| |w msg|w err]; unfold step in Hstep.
  - injection Hstep as <-. eapply Hticks; [apply datagramReceived_ticks | reflexivity].
  - destruct (session_loop (controller s)) as [[[|]]|]; try discriminate.
    injection Hstep as <-. eapply Hticks; [apply sessionTick_ticks | reflexivity].
  - destruct (in_flight s) as [|n] eqn:Hn; [discriminate|].
    injection Hstep as <-. eapply Hquiet; [reflexivity | apply handleSpectrumSuccess_quiet | reflexivity].
  - destruct (in_flight s) as [|n] eqn:Hn; [discriminate|].
    injection Hstep as <-. eapply Hquiet; [reflexivity | apply handleSpectrumFailure_quiet | reflexivity].
Qed.

Lemma run_in_flight (evs : list event) (s s' : Reactor) :
  (in_flight s <= 1)%nat ->
  (in_flight s = 1%nat -> spectrum_state (controller s) = SpectrumState.Busy) ->
  run s evs = Some s' ->
  (in_flight s' <= 1)%nat /\
  (in_flight s' = 1%nat -> spectrum_state (controller s') = SpectrumState.Busy).
Proof.
  revert s. induction evs as [|ev evs IH]; intros s Hle Hbusy Hrun; cbn [run] in Hrun.
  - injection Hrun as <-. split; assumption.
  - destruct (step s ev) as [s1|] eqn:Hstep; [|discriminate].
    destruct (step_in_flight s s1 ev Hle Hbusy Hstep) as [Hle1 Hbusy1].
    exact (IH s1 Hle1 Hbusy1 Hrun).
Qed.


(** Ticks that find the acquisition state [Busy] change nothing. *)
Lemma ticks_while_busy (n : nat) (s : Reactor) :
  session_loop (controller s) = Some {| running := true |} ->
  spectrum_state (controller s) = SpectrumState.Busy ->
  run s (replicate n Tick) = Some s.
Proof.
  intros Hloop Hbusy. induction n as [|n IH]; [reflexivity|].
  cbn [replicate run]. rewrite (step_tick_busy s Hloop Hbusy).
  destruct s as [c k tr]. cbn [controller in_flight trace] in *.
  rewrite Nat.add_0_r, app_nil_r. exact IH.
Qed.

(** ** Relations kept by the reactor *)

(** Any relation of this kind that the entry points of the controller
    keep is kept by every run of the reactor; [allowed] tells which events
    the run is made of. *)
Lemma run_respects (R : rel) `{!Monoidal R} (allowed : event -> Prop) :
  (forall w data from, allowed (Datagram w data from) ->
                       respects R (datagramReceived w data from)) ->
  respects R sessionTick ->
  (forall w msg, respects R (handleSpectrumSuccess w msg)) ->
  (forall w err, respects R (handleSpectrumFailure w err)) ->
  forall evs s s', Forall allowed evs -> run s evs = Some s' ->
  exists effs, trace s' = trace s ++ effs /\ R (controller s) (controller s') effs.
Proof.
  intros Hd Ht Hs Hf evs.
  induction evs as [|ev evs IH]; intros s s' Hall Hrun; cbn [run] in Hrun.
  - injection Hrun as <-. exists []. split; [symmetry; apply app_nil_r | apply rel_refl].
  - destruct (step s ev) as [s1|] eqn:Hstep; [|discriminate].
    apply Forall_cons in Hall as [Hev Hall].
    destruct (IH s1 s' Hall Hrun) as [effs2 [Htr2 HR2]].
    assert (Hone : exists effs1, trace s1 = trace s ++ effs1 /\
                                 R (controller s) (controller s1) effs1).
    { destruct ev as [w data from| |w msg|w err]; unfold step in Hstep.
      - injection Hstep as <-. eexists. split; [reflexivity | apply Hd, Hev].
      - destruct (session_loop (controller s)) as [[[|]]|]; try discriminate.
        injection Hstep as <-. eexists. split; [reflexivity | apply Ht].
      - destruct (in_flight s); [discriminate|].
        injection Hstep as <-. eexists. split; [reflexivity | apply Hs].
      - destruct (in_flight s); [discriminate|].
        injection Hstep as <-. eexists. split; [reflexivity | apply Hf]. }
    destruct Hone as [effs1 [Htr1 HR1]].
    exists (effs1 ++ effs2). split.
    + rewrite Htr2, Htr1, app_assoc. reflexivity.
    + eapply rel_trans; eassumption.
Qed.

(** *** Configuration is never undone *)

#[export] Instance stays_configured_monoidal : Monoidal stays_configured.
Proof.
  split.
  - intros c. split; trivial.
  - intros c c1 c2 e1 e2 [Hw1 Hp1] [Hw2 Hp2]. split; auto.
Qed.

Ltac configured_leaf :=
  split; cbn; intros; first [reflexivity | assumption | discriminate | congruence].

Lemma datagramReceived_configured (w : World) (data : string) (from : addr) :
  respects stays_configured (datagramReceived w data from).
Proof. respects_all fail configured_leaf. Qed.

Lemma sessionTick_configured : respects stays_configured sessionTick.
Proof. respects_all fail configured_leaf. Qed.

Lemma handleSpectrumSuccess_configured (w : World) (msg : json) :
  respects stays_configured (handleSpectrumSuccess w msg).
Proof. respects_all fail configured_leaf. Qed.

Lemma handleSpectrumFailure_configured (w : World) (err : string) :
  respects stays_configured (handleSpectrumFailure w err).
Proof. respects_all fail configured_leaf. Qed.

(** *** The looping call and the session state *)

#[export] Instance keeps_loop_monoidal : Monoidal keeps_loop.
Proof.
  split.
  - intros c H. exact H.
  - intros c c1 c2 e1 e2 H1 H2 H. exact (H2 (H1 H)).
Qed.

Lemma startSession_loop (msg : json) : respects keeps_loop (startSession msg).
Proof.
  intros c Hinv.
  assert (Hcases : post (fun r => self r = c \/
                           (session_state (self r) = SessionState.Busy /\
                            session_loop (self r) = Some {| running := true |}))
                     (startSession msg c)).
  { clear Hinv. open_controller c. exec_paths; unfold post; cbn;
      first [left; reflexivity | right; split; reflexivity]. }
  destruct Hcases as [-> | [Hb Hl]]; [exact Hinv|].
  unfold loop_follows_session. rewrite Hb, Hl. split; reflexivity.
Qed.

Lemma stopSession_loop (msg : json) : respects keeps_loop (stopSession msg).
Proof.
  intros c Hinv.
  assert (Hcases : post (fun r => self r = c \/
                           (session_state (self r) = SessionState.Ready /\
                            session_loop (self r) = Some {| running := false |}))
                     (stopSession msg c)).
  { clear Hinv. open_controller c. exec_paths; unfold post; cbn;
      first [left; reflexivity | right; split; reflexivity]. }
  destruct Hcases as [-> | [Hb Hl]]; [exact Hinv|].
  unfold loop_follows_session. rewrite Hb, Hl. split; discriminate.
Qed.

Ltac loop_known := first [apply startSession_loop | apply stopSession_loop].
Ltac loop_leaf := intros Hinv; exact Hinv.

Lemma datagramReceived_loop (w : World) (data : string) (from : addr) :
  respects keeps_loop (datagramReceived w data from).
Proof. respects_all loop_known loop_leaf. Qed.

Lemma sessionTick_loop : respects keeps_loop sessionTick.
Proof. respects_all loop_known loop_leaf. Qed.

Lemma handleSpectrumSuccess_loop (w : World) (msg : json) :
  respects keeps_loop (handleSpectrumSuccess w msg).
Proof. respects_all loop_known loop_leaf. Qed.

Lemma handleSpectrumFailure_loop (w : World) (err : string) :
  respects keeps_loop (handleSpectrumFailure w err).
Proof. respects_all loop_known loop_leaf. Qed.

(** *** Who is answered *)

#[export] Instance addressed_monoidal : Monoidal addressed.
Proof.
  split.
  - intros c. split; [reflexivity | intros msg to []].
  - intros c c1 c2 e1 e2 [Ha1 Hw1] [Ha2 Hw2]. split; [congruence|].
    intros msg to Hin. apply in_app_or in Hin. destruct Hin as [Hin|Hin].
    + exact (Hw1 msg to Hin).
    + destruct (Hw2 msg to Hin) as [Hto Hcmd]. split; [congruence | exact Hcmd].
Qed.

Lemma sendResponse_addressed (msg : json) : respects addressed (sendResponse msg).
Proof.
  intros c.
  change (post (fun r => addressed c (self r) (effects r)) (sendResponse msg c)).
  unfold sendResponse, bind, get.
  destruct (client_address c) as [to|] eqn:Hto; cbn [lift].
  - destruct (py_getitem msg "command") as [e|v] eqn:Hget; unfold post; cbn.
    + split; [reflexivity | intros ? ? []].
    + split; [reflexivity|]. intros msg' to' [Heq|[]]. injection Heq as <- <-.
      split; [exact Hto|].
      destruct msg as [| | | | | |fields]; try discriminate. cbn in Hget.
      destruct (fields !! "command") as [v'|] eqn:Hv; [|discriminate].
      exists fields, v'. split; [reflexivity | exact Hv].
  - unfold post; cbn. split; [reflexivity | intros ? ? []].
Qed.

Ltac addressed_leaf :=
  split; [reflexivity | intros ? ? Hin; cbn in Hin; intuition discriminate].

Ltac addressed_known := apply sendResponse_addressed.

Lemma bind_assign_eq {B} (set : Controller -> Controller) (k : unit -> M B)
    (c : Controller) :
  bind (assign set) k c = k tt (set c).
Proof. unfold bind, assign. destruct (k tt (set c)). reflexivity. Qed.

Lemma handlers_addressed (w : World) (e : raised) : respects addressed (handlers w e).
Proof. respects_all addressed_known addressed_leaf. Qed.

Lemma handleSpectrumSuccess_addressed (w : World) (msg : json) :
  respects addressed (handleSpectrumSuccess w msg).
Proof. respects_all addressed_known addressed_leaf. Qed.

Lemma handleSpectrumFailure_addressed (w : World) (err : string) :
  respects addressed (handleSpectrumFailure w err).
Proof. respects_all addressed_known addressed_leaf. Qed.

Lemma sessionTick_addressed : respects addressed sessionTick.
Proof. respects_all addressed_known addressed_leaf. Qed.

Lemma datagramReceived_addressed (w : World) (data : string) (from : addr) (c : Controller) :
  addressed (set_client_address (Some from) c)
    (self (datagramReceived w data from c)) (effects (datagramReceived w data from c)).
Proof.
  unfold datagramReceived. rewrite bind_assign_eq.
  match goal with |- context [try_except ?b ?h _] => set (T := try_except b h) end.
  assert (HT : respects addressed T)
    by (subst T; respects_all addressed_known addressed_leaf).
  apply HT.
Qed.

(** *** Answers of the handlers *)

Lemma sendResponseWithInfo_run (tag text : string) (to : addr) (c : Controller) :
  client_address c = Some to ->
  sendResponseWithInfo tag text c = mkResult (inr tt) c [TransportWrite (info tag text) to].
Proof. intros Hto. runs. Qed.

Lemma handlers_run (w : World) (e : exn) (to : addr) (c : Controller) :
  client_address c = Some to ->
  handlers w e c = mkResult (inr tt) c [TransportWrite (error_response e) to].
Proof. intros Hto. destruct e; apply sendResponseWithInfo_run; exact Hto. Qed.

Lemma sendResponse_run (to : addr) (fields : gmap string json) (v : json) (c : Controller) :
  client_address c = Some to ->
  fields !! "command" = Some v ->
  sendResponse (JObj fields) c = mkResult (inr tt) c [TransportWrite (JObj fields) to].
Proof. intros Hto Hv. runs. Qed.

(** ** Rows of the database *)

Lemma spectrum_of_row_short (s : list json) (acc : gmap string json) :
  (length s < 22)%nat ->
  spectrum_of_row s spectrum_fields acc = inl (IndexError "tuple index out of range").
Proof.
  intros Hlen.
  do 22 (destruct s as [|? s]; [reflexivity|]).
  cbn [length] in Hlen. lia.
Qed.

Lemma spectrum_of_row_long (s : list json) (acc : gmap string json) :
  (22 <= length s)%nat ->
  exists fields, spectrum_of_row s spectrum_fields acc = inr (JObj fields).
Proof.
  intros Hlen.
  do 22 (destruct s as [|? s]; [cbn [length] in Hlen; lia|]).
  eexists. reflexivity.
Qed.

(** The entries of [acc] under keys that are not columns are kept. *)
Lemma spectrum_of_row_keeps (s : list json) (fields : list (string * nat))
    (acc : gmap string json) (r : json) (k : string) :
  k ∉ fields.*1 ->
  spectrum_of_row s fields acc = inr r ->
  exists built, r = JObj built /\ built !! k = acc !! k.
Proof.
  revert acc. induction fields as [|[k' i] fields IH]; intros acc Hk Hrow; cbn in Hrow.
  - injection Hrow as <-. exists acc. split; reflexivity.
  - destruct (row_field s i) as [e|x]; [discriminate|].
    cbn in Hk. apply not_elem_of_cons in Hk as [Hne Hk].
    destruct (IH _ Hk Hrow) as [built [-> Hb]].
    exists built. split; [reflexivity|].
    rewrite Hb. apply lookup_insert_ne. congruence.
Qed.

Lemma spectrum_of_row_command (s : list json) (r : json) :
  spectrum_of_row s spectrum_fields {["command" := JStr "spectrum"]} = inr r ->
  exists built, r = JObj built /\ built !! "command" = Some (JStr "spectrum").
Proof.
  intros Hrow.
  destruct (spectrum_of_row_keeps s spectrum_fields {["command" := JStr "spectrum"]}
              r "command") as [built [-> Hb]];
    [ | exact Hrow | ].
  - cbn. intros Hin. repeat (apply elem_of_cons in Hin as [Hin|Hin]; [discriminate|]).
    apply elem_of_nil in Hin. exact Hin.
  - exists built. split; [reflexivity|]. rewrite Hb. apply lookup_singleton_eq.
Qed.

Section Sync.

Variable to : addr.

Lemma send_row_run (s : list json) (r : json) (c : Controller) :
  client_address c = Some to ->
  spectrum_of_row s spectrum_fields {["command" := JStr "spectrum"]} = inr r ->
  send_row s c = mkResult (inr tt) c [TransportWrite r to].
Proof.
  intros Hto Hrow. destruct (spectrum_of_row_command s r Hrow) as [built [-> Hcmd]].
  unfold send_row.
  etransitivity;
    [ eapply bind_inr_run;
      [ apply lift_inr_run; exact Hrow | eapply sendResponse_run; eassumption ]
    | reflexivity ].
Qed.

Lemma send_row_short (s : list json) (c : Controller) :
  (length s < 22)%nat ->
  send_row s c = mkResult (inl (IndexError "tuple index out of range")) c [].
Proof.
  intros Hlen. unfold send_row.
  eapply bind_inl_run.
  apply lift_inl_run. apply spectrum_of_row_short. exact Hlen.
Qed.

Lemma for_each_rows (specs : list (list json)) (replies : list json) (c : Controller) :
  client_address c = Some to ->
  Forall2 (fun s r => spectrum_of_row s spectrum_fields {["command" := JStr "spectrum"]}
                      = inr r) specs replies ->
  for_each specs send_row c =
    mkResult (inr tt) c (map (fun r => TransportWrite r to) replies).
Proof.
  intros Hto Hrows. induction Hrows as [|s r specs replies Hrow Hrows IH]; [reflexivity|].
  cbn [for_each map].
  change (TransportWrite r to :: map (fun r => TransportWrite r to) replies)
    with ([TransportWrite r to] ++ map (fun r => TransportWrite r to) replies).
  eapply bind_inr_run; [apply send_row_run; eassumption | exact IH].
Qed.

Lemma for_each_rows_short (good : list (list json)) (bad : list json)
    (rest : list (list json)) (replies : list json) (c : Controller) :
  client_address c = Some to ->
  Forall2 (fun s r => spectrum_of_row s spectrum_fields {["command" := JStr "spectrum"]}
                      = inr r) good replies ->
  (length bad < 22)%nat ->
  for_each (good ++ bad :: rest) send_row c =
    mkResult (inl (IndexError "tuple index out of range")) c
      (map (fun r => TransportWrite r to) replies).
Proof.
  intros Hto Hrows Hbad. induction Hrows as [|s r specs replies Hrow Hrows IH].
  - cbn [app for_each map].
    eapply bind_inl_run. apply send_row_short. exact Hbad.
  - cbn [app for_each map].
    change (TransportWrite r to :: map (fun r => TransportWrite r to) replies)
      with ([TransportWrite r to] ++ map (fun r => TransportWrite r to) replies).
    eapply bind_inr_run; [apply send_row_run; eassumption | exact IH].
Qed.

End Sync.

Lemma rows_long (specs : list (list json)) :
  Forall (fun s => (22 <= length s)%nat) specs ->
  exists replies,
    Forall2 (fun s r => spectrum_of_row s spectrum_fields {["command" := JStr "spectrum"]}
                        = inr r) specs replies.
Proof.
  induction 1 as [|s specs Hs _ [replies IH]].
  - exists []. constructor.
  - destruct (spectrum_of_row_long s {["command" := JStr "spectrum"]} Hs) as [fields Hf].
    exists (JObj fields :: replies). constructor; assumption.
Qed.

Section Dispatcher.

Variables (w : World) (data : string) (from : addr).
Variable m : gmap string json.
Hypothesis decoded : json_loads w data = inr (JObj m).

(** A [sync_session] whose rows all convert. *)
Lemma sync_session_run (c : Controller) (name indices last : json) (idx : list json)
    (upto : Z) (specs : list (list json)) (replies : list json) :
  m !! "command" = Some (JStr "sync_session") ->
  m !! "session_name" = Some name ->
  m !! "indices_list" = Some indices ->
  m !! "last_index" = Some last ->
  builtin_list w indices = inr idx ->
  builtin_int w last = inr upto ->
  database_getSyncSpectrums w name idx upto = inr specs ->
  Forall2 (fun s r => spectrum_of_row s spectrum_fields {["command" := JStr "spectrum"]}
                      = inr r) specs replies ->
  datagramReceived w data from c =
    mkResult (inr tt) (set_client_address (Some from) c)
      (DatabaseQuery name idx upto :: map (fun r => TransportWrite r from) replies).
Proof.
  intros Hcmd Hname Hind Hlast Hlist Hint Hdb Hrows. open_controller c.
  pose proof (fun c Hto => for_each_rows from specs replies c Hto Hrows) as Hfor.
  unfold send_row in Hfor.
  etransitivity.
  { unfold datagramReceived.
    eapply bind_inr_run; [run|]. try head_beta_iota.
    eapply try_inr_run.
    do 2 (eapply bind_inr_run; [run|]; try head_beta_iota).
    eapply if_false_run; [eval_value|].
    eapply bind_inr_run; [run|]; try head_beta_iota.
    do 5 (eapply if_false_run; [eval_value|]).
    eapply if_true_run; [eval_value|].
    do 6 (eapply bind_inr_run; [run|]; try head_beta_iota).
    apply Hfor. reflexivity. }
  reflexivity.
Qed.

(** A [sync_session] one of whose rows has fewer than 22 columns. *)
Lemma sync_session_short_run (c : Controller) (name indices last : json) (idx : list json)
    (upto : Z) (good rest : list (list json)) (bad : list json) (replies : list json) :
  m !! "command" = Some (JStr "sync_session") ->
  m !! "session_name" = Some name ->
  m !! "indices_list" = Some indices ->
  m !! "last_index" = Some last ->
  builtin_list w indices = inr idx ->
  builtin_int w last = inr upto ->
  database_getSyncSpectrums w name idx upto = inr (good ++ bad :: rest) ->
  Forall2 (fun s r => spectrum_of_row s spectrum_fields {["command" := JStr "spectrum"]}
                      = inr r) good replies ->
  (length bad < 22)%nat ->
  datagramReceived w data from c =
    mkResult (inr tt) (set_client_address (Some from) c)
      (DatabaseQuery name idx upto :: map (fun r => TransportWrite r from) replies ++
       [TransportWrite (info "error" "tuple index out of range") from]).
Proof.
  intros Hcmd Hname Hind Hlast Hlist Hint Hdb Hrows Hbad. open_controller c.
  pose proof (fun c Hto => for_each_rows_short from good bad rest replies c Hto Hrows Hbad)
    as Hfor.
  unfold send_row in Hfor.
  etransitivity.
  { unfold datagramReceived.
    eapply bind_inr_run; [run|]. try head_beta_iota.
    eapply try_inl_run.
    - do 2 (eapply bind_inr_run; [run|]; try head_beta_iota).
      eapply if_false_run; [eval_value|].
      eapply bind_inr_run; [run|]; try head_beta_iota.
      do 5 (eapply if_false_run; [eval_value|]).
      eapply if_true_run; [eval_value|].
      do 6 (eapply bind_inr_run; [run|]; try head_beta_iota).
      apply Hfor. reflexivity.
    - apply handlers_run. reflexivity. }
  cbn [app error_response IndexError]. reflexivity.
Qed.

(** A [detector_config] for which [initializePlugin] raises. *)
Lemma detector_config_uninitialized_run (c : Controller) (cfg : gmap string json)
    (name : string) (e : exn) :
  m !! "command" = Some (JStr "detector_config") ->
  m !! "detector_data" = Some (JObj cfg) ->
  cfg !! "plugin_name" = Some (JStr name) ->
  session_state c = SessionState.Ready ->
  (forall old, plugin c = Some old -> plugin_finalizePlugin w old = None) ->
  (sys_modules w ("plugin_" +:+ name) = false ->
   import_module w ("plugin_" +:+ name) = None) ->
  plugin_initializePlugin w ("plugin_" +:+ name) = Some e ->
  datagramReceived w data from c =
    mkResult (inr tt)
      (set_plugin (Some ("plugin_" +:+ name))
         (set_detector_data (JObj cfg) (set_client_address (Some from) c)))
      (finalized c ++
       (if sys_modules w ("plugin_" +:+ name) then []
        else [ImportModule ("plugin_" +:+ name)]) ++
       [InitializePlugin ("plugin_" +:+ name); TransportWrite (error_response e) from]).
Proof.
  intros Hcmd Hcfg Hname Hidle Hfin Himp Hinit. open_controller c.
  destruct bound as [old|]; [pose proof (Hfin old eq_refl) as Hold|]; clear Hfin;
    (destruct (sys_modules w ("plugin_" +:+ name)) eqn:Hmod;
       [clear Himp | pose proof (Himp eq_refl) as Himp']);
    destruct e; runs.
Qed.

(** A [start_session] received while the acquisition state is [Busy]. *)
Lemma start_session_pending_run (c : Controller) (name p : string) (h : conn) :
  m !! "command" = Some (JStr "start_session") ->
  m !! "session_name" = Some (JStr name) ->
  session_state c = SessionState.Ready ->
  spectrum_state c = SpectrumState.Busy ->
  plugin c = Some p ->
  database_create w (detector_data c) (JObj m) = inr h ->
  plugin_initializeSession w p (JObj m) = None ->
  datagramReceived w data from c =
    mkResult (inr tt)
      (set_session_args (JObj (<["command" := JStr "start_session_success"]> m))
         (set_session_state SessionState.Busy
            (set_session_loop (Some {| running := true |})
               (set_database_connection (Some h)
                  (set_spectrum_failures 0 (set_spectrum_index 0
                     (set_session_args (JObj m)
                        (set_client_address (Some from) c))))))))
      [DatabaseCreate (detector_data c) (JObj m);
       InitializeSession p (JObj m);
       LoopStart;
       TransportWrite (JObj (<["command" := JStr "start_session_success"]> m)) from].
Proof.
  intros Hcmd Hname Hidle Hbusy Hp Hdb Hinit. open_controller c. runs.
Qed.

End Dispatcher.

(** ** More runs of the scheduler *)

Section Scheduler.

Variable w : World.

(** A result that [database.insertSpectrum] refuses. *)
Lemma handleSpectrumSuccess_unstored_run (m : gmap string json) (e : exn) (c : Controller) :
  database_insertSpectrum w (database_connection c)
    (JObj (<["index" := JInt (spectrum_index c)]> m)) = Some e ->
  handleSpectrumSuccess w (JObj m) c =
    mkResult (inl e) (set_spectrum_index (spectrum_index c + 1) c)
      [DatabaseInsert (database_connection c)
         (JObj (<["index" := JInt (spectrum_index c)]> m))].
Proof. intros Hins. open_controller c. runs. Qed.

(** A failure that reaches the threshold when the looping call has
    already been stopped. *)
Lemma handleSpectrumFailure_stopped_run (err : string) (to : addr) (c : Controller) :
  client_address c = Some to ->
  (3 <=? spectrum_failures c + 1)%Z = true ->
  session_loop c = Some {| running := false |} ->
  handleSpectrumFailure w err c =
    mkResult (inl (AssertionError "Tried to stop a LoopingCall that was not running."))
      (set_spectrum_failures (spectrum_failures c + 1) c)
      [TransportWrite (info "error" err) to].
Proof. intros Hto Hhigh Hloop. open_controller c. runs. Qed.

(** [aquireSpectrum] with a plugin that returns a dict. *)
Lemma aquireSpectrum_run (p : string) (m : gmap string json) (c : Controller) :
  plugin c = Some p ->
  plugin_acquireSpectrum w p (session_args c) = inr (JObj m) ->
  aquireSpectrum w c =
    mkResult
      (inr (JObj (<["time" := gps_time w]> (gps_velocity w ∪ (gps_position w ∪ m)))))
      c [].
Proof. intros Hp Hacq. open_controller c. runs. Qed.

Lemma stopProtocol_run (c : Controller) :
  (forall p, plugin c = Some p -> plugin_finalizePlugin w p = None) ->
  stopProtocol w c = mkResult (inr tt) c (finalized c ++ [GpsStopSet; GpsJoin]).
Proof.
  intros Hfin. open_controller c. destruct bound as [p|].
  - pose proof (Hfin p eq_refl) as Hp. clear Hfin. runs.
  - clear Hfin. runs.
Qed.

Lemma stopProtocol_raise_run (p : string) (e : exn) (c : Controller) :
  plugin c = Some p ->
  plugin_finalizePlugin w p = Some e ->
  stopProtocol w c = mkResult (inl e) c [FinalizePlugin p].
Proof. intros Hp Hfin. open_controller c. runs. Qed.

End Scheduler.

(** * The claims *)

(** ** The failure counter *)

(** C1, as stated, fails: in the sample session a failed acquisition
    followed by a successful one leaves [spectrum_failures] at 1, although
    [handleSpectrumSuccess] has returned; and after failure, success,
    failure, failure the counter is 3 and the session has been stopped. *)
Lemma failure_counter_survives_success :
  let w := nominal start_session_msg in
  option_map (fun s => spectrum_failures (controller s))
    (run active_reactor [AcquireFailed w "timeout"; Tick; Acquired w spectrum_msg])
    = Some 1%Z /\
  option_map (fun s => (spectrum_failures (controller s), session_state (controller s)))
    (run active_reactor
       [AcquireFailed w "timeout"; Tick; Acquired w spectrum_msg; Tick;
        AcquireFailed w "timeout"; Tick; AcquireFailed w "timeout"])
    = Some (3%Z, SessionState.Ready).
Proof. vm_compute. split; reflexivity. Qed.

(** C1, amended: [handleSpectrumSuccess] leaves [spectrum_failures] as it
    is and [handleSpectrumFailure] adds one to it, whatever else they do:
    the counter counts the failures of the session, not the consecutive
    ones. *)
Theorem failure_counter_is_cumulative (w : World) (msg : json) (err : string)
    (c : Controller) :
  spectrum_failures (self (handleSpectrumSuccess w msg c)) = spectrum_failures c /\
  spectrum_failures (self (handleSpectrumFailure w err c)) = (spectrum_failures c + 1)%Z.
Proof.
  split; [apply handleSpectrumSuccess_failures | apply handleSpectrumFailure_failures].
Qed.

(** C2: while a session runs with no failure counted yet and one
    acquisition in flight, three failed acquisitions, each followed by the
    tick that starts the next, stop the session: every failure is
    reported, and the third stops the looping call, finalizes the plugin's
    session, closes the database handle and forgets it, and sends the
    terminal message, once.  After it the session is [Ready], the
    acquisition state is [Ready], nothing is in flight and no tick fires
    any more. *)
Theorem three_failures_stop_session (w : World) (s : Reactor) (to : addr) (p : string)
    (e1 e2 e3 : string) :
  session_state (controller s) = SessionState.Busy ->
  session_loop (controller s) = Some {| running := true |} ->
  client_address (controller s) = Some to ->
  plugin (controller s) = Some p ->
  spectrum_failures (controller s) = 0%Z ->
  in_flight s = 1%nat ->
  plugin_finalizeSession w p (session_args (controller s)) = None ->
  database_close w (database_connection (controller s)) = None ->
  exists s',
    run s [AcquireFailed w e1; Tick; AcquireFailed w e2; Tick; AcquireFailed w e3] = Some s' /\
    trace s' = trace s ++
      [TransportWrite (info "error" e1) to; DeferToThread;
       TransportWrite (info "error" e2) to; DeferToThread;
       TransportWrite (info "error" e3) to;
       LoopStop;
       FinalizeSession p (session_args (controller s));
       DatabaseClose (database_connection (controller s));
       TransportWrite
         (info "error" "Acquiring spectrum has failed 3 times, stopping session") to] /\
    session_state (controller s') = SessionState.Ready /\
    session_loop (controller s') = Some {| running := false |} /\
    database_connection (controller s') = None /\
    spectrum_state (controller s') = SpectrumState.Ready /\
    in_flight s' = 0%nat /\
    step s' Tick = None.
Proof.
  intros Hbusy Hloop Hto Hp Hzero Hn Hfin Hclose.
  destruct s as [c n tr]. cbn [controller in_flight trace] in *. subst n.
  open_controller c.
  eexists. split.
  - cbn [run].
    erewrite step_failed_below by (cbn; first [reflexivity | eassumption]).
    erewrite step_tick_ready by (cbn; reflexivity).
    erewrite step_failed_below by (cbn; first [reflexivity | eassumption]).
    erewrite step_tick_ready by (cbn; reflexivity).
    erewrite step_failed_escalate by (cbn; first [reflexivity | eassumption]).
    reflexivity.
  - cbn. rewrite <- !app_assoc. repeat split.
Qed.

Lemma three_failures_stop_session_witness :
  exists s',
    run active_reactor
      [AcquireFailed (nominal start_session_msg) "timeout"; Tick;
       AcquireFailed (nominal start_session_msg) "timeout"; Tick;
       AcquireFailed (nominal start_session_msg) "timeout"] = Some s' /\
    session_state (controller s') = SessionState.Ready /\
    database_connection (controller s') = None.
Proof.
  destruct (three_failures_stop_session (nominal start_session_msg) active_reactor
              operator "plugin_osprey" "timeout" "timeout" "timeout")
    as [s' [Hrun [_ [Hidle [_ [Hdb _]]]]]]; try (vm_compute; reflexivity).
  exists s'. repeat split; assumption.
Defined.

(** ** Rejected configurations *)

(** C3, as stated, fails: a [detector_config] naming a module that cannot
    be imported is answered with the tag [error], not with
    [detector_config_error], and the configuration it carried has
    replaced the stored one. *)
Lemma unknown_plugin_is_generic_error :
  let r := datagramReceived (no_plugin unknown_config_msg) "" operator init in
  effects r =
    [ImportModule "plugin_nosuch";
     TransportWrite (info "error" "Unable to import module") operator] /\
  detector_data init = JNull /\
  detector_data (self r) = JObj unknown_config.
Proof. vm_compute. repeat split. Qed.

(** C3, amended: a [detector_config] received while no session runs, whose
    plugin module is not loaded and cannot be imported, is answered with
    the tag [error] and the text [Unable to import module], after the
    plugin bound so far has been finalized; the session state, the
    detector state and the bound plugin stay as they were. *)
Theorem unresolved_plugin_keeps_states (w : World) (data : string) (from : addr)
    (m cfg : gmap string json) (name text : string) (c : Controller) :
  json_loads w data = inr (JObj m) ->
  m !! "command" = Some (JStr "detector_config") ->
  m !! "detector_data" = Some (JObj cfg) ->
  cfg !! "plugin_name" = Some (JStr name) ->
  session_state c = SessionState.Ready ->
  (forall old, plugin c = Some old -> plugin_finalizePlugin w old = None) ->
  sys_modules w ("plugin_" +:+ name) = false ->
  import_module w ("plugin_" +:+ name) = Some (ImportError text) ->
  let r := datagramReceived w data from c in
  effects r =
    finalized c ++
    [ImportModule ("plugin_" +:+ name);
     TransportWrite (info "error" "Unable to import module") from] /\
  session_state (self r) = session_state c /\
  detector_state (self r) = detector_state c /\
  plugin (self r) = plugin c.
Proof.
  intros Hdec Hcmd Hcfg Hname Hidle Hfin Hmod Himp r. subst r.
  rewrite (detector_config_unresolved_run w data from m Hdec c cfg name
             (ImportError text) Hcmd Hcfg Hname Hidle Hfin Hmod Himp).
  repeat split.
Qed.

Lemma unresolved_plugin_keeps_states_witness :
  let r := datagramReceived (no_plugin unknown_config_msg) "" operator configured in
  effects r =
    finalized configured ++
    [ImportModule ("plugin_" +:+ "nosuch");
     TransportWrite (info "error" "Unable to import module") operator] /\
  session_state (self r) = session_state configured /\
  detector_state (self r) = detector_state configured /\
  plugin (self r) = plugin configured.
Proof.
  apply (unresolved_plugin_keeps_states (no_plugin unknown_config_msg) "" operator
           (<["command" := JStr "detector_config"]> {["detector_data" := JObj unknown_config]})
           unknown_config "nosuch" "No module named plugin" configured);
    vm_compute; reflexivity.
Defined.

(** C4: a [detector_config] whose [detector_data] names no plugin, received
    while no session runs, is answered with [detector_config_error], and
    the rejected [detector_data] is what the controller holds afterwards:
    the assignment comes before the check. *)
Theorem rejected_config_is_stored (w : World) (data : string) (from : addr)
    (m cfg : gmap string json) (c : Controller) :
  json_loads w data = inr (JObj m) ->
  m !! "command" = Some (JStr "detector_config") ->
  m !! "detector_data" = Some (JObj cfg) ->
  cfg !! "plugin_name" = None ->
  session_state c = SessionState.Ready ->
  let r := datagramReceived w data from c in
  effects r =
    [TransportWrite
       (info "detector_config_error" "Detector config failed, plugin_name missing") from] /\
  detector_data (self r) = JObj cfg.
Proof.
  intros Hdec Hcmd Hcfg Hname Hidle r. subst r.
  rewrite (detector_config_no_name_run w data from m Hdec c cfg Hcmd Hcfg Hname Hidle).
  split; reflexivity.
Qed.

Lemma rejected_config_is_stored_witness :
  let r := datagramReceived (nominal nameless_config_msg) "" operator configured in
  effects r =
    [TransportWrite
       (info "detector_config_error" "Detector config failed, plugin_name missing")
       operator] /\
  detector_data (self r) = JObj nameless_config.
Proof.
  apply (rejected_config_is_stored (nominal nameless_config_msg) "" operator
           (<["command" := JStr "detector_config"]> {["detector_data" := JObj nameless_config]})
           nameless_config configured);
    vm_compute; reflexivity.
Defined.

(** ** Results that arrive after the session has ended *)




(** ** One acquisition at a time *)

(** C6: in every state the reactor reaches from its start, whatever the
    datagrams, the ticks and the results of acquisitions and their order,
    at most one acquisition is in flight, and [spectrum_state] is [Busy]
    while one is; a tick that finds [spectrum_state] [Busy] starts nothing
    and changes nothing. *)
Theorem one_acquisition_in_flight (evs : list event) (s : Reactor) :
  run boot evs = Some s ->
  (in_flight s <= 1)%nat /\
  (in_flight s = 1%nat -> spectrum_state (controller s) = SpectrumState.Busy) /\
  (spectrum_state (controller s) = SpectrumState.Busy ->
   forall s', step s Tick = Some s' ->
   controller s' = controller s /\ in_flight s' = in_flight s /\ trace s' = trace s).
Proof.
  intros Hrun.
  destruct (run_in_flight evs boot s) as [Hle Hbusy];
    [cbn; lia | cbn; discriminate | exact Hrun |].
  split; [exact Hle|]. split; [exact Hbusy|].
  intros Hb s' Hstep. unfold step in Hstep.
  destruct (session_loop (controller s)) as [[[|]]|]; try discriminate.
  rewrite (sessionTick_busy_run _ Hb) in Hstep. injection Hstep as <-.
  unfold after; cbn. rewrite app_nil_r. repeat split. lia.
Qed.

Lemma one_acquisition_in_flight_witness :
  (in_flight active_reactor <= 1)%nat /\
  (in_flight active_reactor = 1%nat ->
   spectrum_state (controller active_reactor) = SpectrumState.Busy) /\
  (spectrum_state (controller active_reactor) = SpectrumState.Busy ->
   forall s', step active_reactor Tick = Some s' ->
   controller s' = controller active_reactor /\ in_flight s' = in_flight active_reactor /\
   trace s' = trace active_reactor).
Proof.
  apply (one_acquisition_in_flight session_started active_reactor).
  vm_compute. reflexivity.
Defined.

(** ** Commands and their answers *)

(** C7: a [start_session] received while a session runs is answered with
    [start_session_busy] and nothing else happens: the session arguments,
    the spectrum index and the failure counter are those of the running
    session, which keeps running. *)
Theorem start_session_while_active (w : World) (data : string) (from : addr)
    (m : gmap string json) (c : Controller) :
  json_loads w data = inr (JObj m) ->
  m !! "command" = Some (JStr "start_session") ->
  session_state c = SessionState.Busy ->
  let r := datagramReceived w data from c in
  effects r =
    [TransportWrite
       (info "start_session_busy" "Start session failed, session is active") from] /\
  session_args (self r) = session_args c /\
  spectrum_index (self r) = spectrum_index c /\
  spectrum_failures (self r) = spectrum_failures c /\
  session_state (self r) = SessionState.Busy.
Proof.
  intros Hdec Hcmd Hbusy r. subst r.
  rewrite (start_session_busy_run w data from m Hdec c Hcmd Hbusy).
  cbn. rewrite Hbusy. repeat split.
Qed.

Lemma start_session_while_active_witness :
  let r := datagramReceived (nominal start_session_msg) "" operator active in
  effects r =
    [TransportWrite
       (info "start_session_busy" "Start session failed, session is active") operator] /\
  session_args (self r) = session_args active /\
  spectrum_index (self r) = spectrum_index active /\
  spectrum_failures (self r) = spectrum_failures active /\
  session_state (self r) = SessionState.Busy.
Proof.
  apply (start_session_while_active (nominal start_session_msg) "" operator
           (<["command" := JStr "start_session"]>
              (<["session_name" := JStr "survey1"]> {["livetime" := JInt 1]})) active);
    vm_compute; reflexivity.
Defined.

(** C8: the answer to [get_status] is one message with the command
    [get_status_success] and four fields: [free_disk_space], the integer
    [f_bsize * f_bavail]; [session_running], a boolean that is true exactly
    when the session state is [Busy]; [spectrum_index], an integer that is
    0 when the session state is [Ready] and the current index otherwise;
    [detector_configured], a boolean that is true exactly when the
    detector state is [Warm]. *)
Theorem get_status_fields (w : World) (data : string) (from : addr)
    (m : gmap string json) (c : Controller) :
  json_loads w data = inr (JObj m) ->
  m !! "command" = Some (JStr "get_status") ->
  exists (fields : gmap string json) (running configured : bool) (index : Z),
    effects (datagramReceived w data from c) = [TransportWrite (JObj fields) from] /\
    fields !! "command" = Some (JStr "get_status_success") /\
    fields !! "free_disk_space" = Some (JInt (fst (statvfs_root w) * snd (statvfs_root w))) /\
    fields !! "session_running" = Some (JBool running) /\
    (running = true <-> session_state c = SessionState.Busy) /\
    fields !! "spectrum_index" = Some (JInt index) /\
    (session_state c = SessionState.Ready -> index = 0%Z) /\
    (session_state c = SessionState.Busy -> index = spectrum_index c) /\
    fields !! "detector_configured" = Some (JBool configured) /\
    (configured = true <-> detector_state c = DetectorState.Warm).
Proof.
  intros Hdec Hcmd.
  rewrite (get_status_run w data from m Hdec c Hcmd). unfold status_response.
  exists (<["command" := JStr "get_status_success"]> (
        <["free_disk_space" := JInt (fst (statvfs_root w) * snd (statvfs_root w))]> (
        <["session_running" :=
            JBool (if SessionState.eqb (session_state c) SessionState.Busy
                   then true else false)]> (
        <["spectrum_index" :=
            JInt (if SessionState.eqb (session_state c) SessionState.Ready
                  then 0 else spectrum_index c)]> (
        <["detector_configured" :=
            JBool (if DetectorState.eqb (detector_state c) DetectorState.Warm
                   then true else false)]> ∅))))),
    (if SessionState.eqb (session_state c) SessionState.Busy then true else false),
    (if DetectorState.eqb (detector_state c) DetectorState.Warm then true else false),
    (if SessionState.eqb (session_state c) SessionState.Ready then 0%Z else spectrum_index c).
  repeat (rewrite ?lookup_insert_eq; rewrite ?lookup_insert_ne by discriminate).
  destruct (session_state c), (detector_state c); cbn;
    repeat split; intros; try reflexivity; try discriminate.
Qed.

Lemma get_status_fields_witness :
  exists (fields : gmap string json) (running configured : bool) (index : Z),
    effects (datagramReceived (nominal get_status_msg) "" operator active)
      = [TransportWrite (JObj fields) operator] /\
    fields !! "command" = Some (JStr "get_status_success") /\
    fields !! "free_disk_space" = Some (JInt (4096 * 1000)) /\
    fields !! "session_running" = Some (JBool running) /\
    (running = true <-> session_state active = SessionState.Busy) /\
    fields !! "spectrum_index" = Some (JInt index) /\
    (session_state active = SessionState.Ready -> index = 0%Z) /\
    (session_state active = SessionState.Busy -> index = spectrum_index active) /\
    fields !! "detector_configured" = Some (JBool configured) /\
    (configured = true <-> detector_state active = DetectorState.Warm).
Proof.
  apply (get_status_fields (nominal get_status_msg) "" operator
           (<["command" := JStr "get_status"]> ∅) active);
    vm_compute; reflexivity.
Defined.

(** C9: a [detector_config] received while a plugin is bound and no
    session runs, naming a module that is not loaded and whose import
    raises: [finalizePlugin] of the bound plugin is called first, then the
    import is tried, then the failure is answered.  Afterwards the
    finalized plugin is still the bound one and the detector state is what
    it was, [Warm] if it was. *)
Theorem failed_reconfiguration_finalizes (w : World) (data : string) (from : addr)
    (m cfg : gmap string json) (name old : string) (e : exn) (c : Controller) :
  json_loads w data = inr (JObj m) ->
  m !! "command" = Some (JStr "detector_config") ->
  m !! "detector_data" = Some (JObj cfg) ->
  cfg !! "plugin_name" = Some (JStr name) ->
  session_state c = SessionState.Ready ->
  plugin c = Some old ->
  plugin_finalizePlugin w old = None ->
  sys_modules w ("plugin_" +:+ name) = false ->
  import_module w ("plugin_" +:+ name) = Some e ->
  let r := datagramReceived w data from c in
  effects r =
    [FinalizePlugin old; ImportModule ("plugin_" +:+ name);
     TransportWrite (error_response e) from] /\
  plugin (self r) = Some old /\
  detector_state (self r) = detector_state c.
Proof.
  intros Hdec Hcmd Hcfg Hname Hidle Hold Hfin Hmod Himp r. subst r.
  rewrite (detector_config_unresolved_run w data from m Hdec c cfg name e
             Hcmd Hcfg Hname Hidle); [| | exact Hmod | exact Himp].
  - unfold finalized. rewrite Hold. cbn. rewrite Hold. repeat split.
  - intros old' Hold'. rewrite Hold in Hold'. injection Hold' as <-. exact Hfin.
Qed.

Lemma failed_reconfiguration_finalizes_witness :
  let r := datagramReceived (no_plugin unknown_config_msg) "" operator configured in
  effects r =
    [FinalizePlugin "plugin_osprey"; ImportModule ("plugin_" +:+ "nosuch");
     TransportWrite (error_response (ImportError "No module named plugin")) operator] /\
  plugin (self r) = Some "plugin_osprey" /\
  detector_state (self r) = detector_state configured.
Proof.
  apply (failed_reconfiguration_finalizes (no_plugin unknown_config_msg) "" operator
           (<["command" := JStr "detector_config"]> {["detector_data" := JObj unknown_config]})
           unknown_config "nosuch" "plugin_osprey" (ImportError "No module named plugin")
           configured);
    vm_compute; reflexivity.
Defined.




(** * Further properties *)

(** ** The dispatcher *)

(** X2: whatever the datagram, its sender is the client address
    afterwards, every message written while it is handled is written to
    its sender, and every such message is a dict with a [command]. *)
Theorem replies_go_to_sender (w : World) (data : string) (from : addr) (c : Controller) :
  let r := datagramReceived w data from c in
  client_address (self r) = Some from /\
  forall msg to, In (TransportWrite msg to) (effects r) -> to = from /\ has_command msg.
Proof.
  destruct (datagramReceived_addressed w data from c) as [Ha Hw].
  split; [exact Ha|]. intros msg to Hin. destruct (Hw msg to Hin) as [Hto Hcmd].
  cbn in Hto. injection Hto as <-. split; [reflexivity | exact Hcmd].
Qed.

(** X4: after a datagram from [from], and until the next datagram, the
    client address is [from] and everything the controller writes, the
    answer to the datagram as well as the spectra and the error reports of
    the scheduler, is written to [from]. *)
Theorem spectra_follow_last_sender (w : World) (data : string) (from : addr)
    (evs : list event) (s s1 s2 : Reactor) :
  step s (Datagram w data from) = Some s1 ->
  Forall (fun ev => is_datagram ev = false) evs ->
  run s1 evs = Some s2 ->
  client_address (controller s2) = Some from /\
  forall msg to,
    In (TransportWrite msg to) (drop (length (trace s)) (trace s2)) -> to = from.
Proof.
  intros Hstep Hevs Hrun. cbn [step] in Hstep. injection Hstep as <-.
  destruct (datagramReceived_addressed w data from (controller s)) as [Ha Hw].
  destruct (run_respects addressed (fun ev => is_datagram ev = false)) with
    (evs := evs) (s := after s (in_flight s) (datagramReceived w data from (controller s)))
    (s' := s2) as [effs [Htr [Ha2 Hw2]]].
  - intros w' data' from' Hd. discriminate Hd.
  - apply sessionTick_addressed.
  - apply handleSpectrumSuccess_addressed.
  - apply handleSpectrumFailure_addressed.
  - exact Hevs.
  - exact Hrun.
  - cbn [after controller trace] in *.
    change (client_address (self (datagramReceived w data from (controller s)))
            = Some from) in Ha.
    split; [congruence|].
    intros msg to Hin. rewrite Htr, <- app_assoc, drop_app_length in Hin.
    apply in_app_or in Hin. destruct Hin as [Hin|Hin].
    + destruct (Hw msg to Hin) as [Hto _]. cbn in Hto. congruence.
    + destruct (Hw2 msg to Hin) as [Hto _]. congruence.
Qed.

Lemma spectra_follow_last_sender_witness :
  let w := nominal get_status_msg in
  let s1 := match step active_reactor (Datagram w "" other_operator) with
            | Some s => s | None => boot end in
  let s2 := match run s1 [Acquired w spectrum_msg; Tick] with
            | Some s => s | None => boot end in
  client_address (controller s2) = Some other_operator /\
  forall msg to,
    In (TransportWrite msg to) (drop (length (trace active_reactor)) (trace s2)) ->
    to = other_operator.
Proof.
  intros w s1 s2.
  apply (spectra_follow_last_sender w "" other_operator [Acquired w spectrum_msg; Tick]
           active_reactor s1 s2).
  - vm_compute. reflexivity.
  - repeat constructor.
  - vm_compute. reflexivity.
Defined.

(** X5: in every state the reactor reaches from its start, the looping
    call is running exactly when the session state is [Busy]; so a tick can
    fire exactly while a session is active. *)
Theorem looping_call_follows_session (evs : list event) (s : Reactor) :
  run boot evs = Some s ->
  (session_state (controller s) = SessionState.Busy <->
   session_loop (controller s) = Some {| running := true |}) /\
  (step s Tick = None <-> session_state (controller s) = SessionState.Ready).
Proof.
  intros Hrun.
  destruct (run_respects keeps_loop (fun _ => True)) with
    (evs := evs) (s := boot) (s' := s) as [effs [_ Hkeep]].
  - intros. apply datagramReceived_loop.
  - apply sessionTick_loop.
  - apply handleSpectrumSuccess_loop.
  - apply handleSpectrumFailure_loop.
  - apply Forall_forall. trivial.
  - exact Hrun.
  - assert (Hinv : loop_follows_session (controller s)).
    { apply Hkeep. split; discriminate. }
    split; [exact Hinv|]. unfold loop_follows_session in Hinv. unfold step.
    destruct (session_state (controller s)),
             (session_loop (controller s)) as [[[|]]|];
      split; intros H; try reflexivity; try discriminate;
      destruct Hinv as [H1 H2];
      first [ specialize (H1 eq_refl); discriminate
            | specialize (H2 eq_refl); discriminate ].
Qed.

Lemma looping_call_follows_session_witness :
  (session_state (controller active_reactor) = SessionState.Busy <->
   session_loop (controller active_reactor) = Some {| running := true |}) /\
  (step active_reactor Tick = None <->
   session_state (controller active_reactor) = SessionState.Ready).
Proof.
  apply (looping_call_follows_session session_started active_reactor).
  vm_compute. reflexivity.
Defined.

(** X6: no event undoes the configuration: along every run of the reactor
    a detector state that is [Warm] stays [Warm] and a plugin that is bound
    stays bound, also when a later [detector_config] fails after the bound
    plugin has been finalized. *)
Theorem configuration_is_never_undone (evs : list event) (s s' : Reactor) :
  run s evs = Some s' ->
  (detector_state (controller s) = DetectorState.Warm ->
   detector_state (controller s') = DetectorState.Warm) /\
  (plugin (controller s) <> None -> plugin (controller s') <> None).
Proof.
  intros Hrun.
  destruct (run_respects stays_configured (fun _ => True)) with
    (evs := evs) (s := s) (s' := s') as [effs [_ Hkeep]].
  - intros. apply datagramReceived_configured.
  - apply sessionTick_configured.
  - apply handleSpectrumSuccess_configured.
  - apply handleSpectrumFailure_configured.
  - apply Forall_forall. trivial.
  - exact Hrun.
  - exact Hkeep.
Qed.

Lemma configuration_is_never_undone_witness :
  let s := {| controller := configured; in_flight := 0; trace := [] |} in
  let s' := match run s [Datagram (no_plugin unknown_config_msg) "" operator] with
            | Some s' => s' | None => boot end in
  (detector_state (controller s) = DetectorState.Warm ->
   detector_state (controller s') = DetectorState.Warm) /\
  (plugin (controller s) <> None -> plugin (controller s') <> None).
Proof.
  intros s s'.
  apply (configuration_is_never_undone
           [Datagram (no_plugin unknown_config_msg) "" operator] s s').
  vm_compute. reflexivity.
Defined.

(** ** Requests that are not commands *)

(** X7: a datagram that [json.loads] rejects is answered with the tag
    [error] and the text of the exception, and nothing but the client
    address changes. *)
Theorem undecodable_datagram (w : World) (data text : string) (from : addr)
    (c : Controller) :
  json_loads w data = inl (Exception text) ->
  datagramReceived w data from c =
    mkResult (inr tt) (set_client_address (Some from) c)
      [TransportWrite (info "error" text) from].
Proof. intros Hdec. exact (undecodable_run w data from (Exception text) c Hdec). Qed.

Lemma undecodable_datagram_witness :
  datagramReceived garbled "{" operator active =
    mkResult (inr tt) (set_client_address (Some operator) active)
      [TransportWrite (info "error" "No JSON object could be decoded") operator].
Proof.
  apply (undecodable_datagram garbled "{" "No JSON object could be decoded" operator active).
  vm_compute. reflexivity.
Defined.

(** X8: a dict without a [command] is answered with the tag [error] and
    the text [Message has no command], and nothing but the client address
    changes. *)
Theorem message_without_command (w : World) (data : string) (from : addr)
    (m : gmap string json) (c : Controller) :
  json_loads w data = inr (JObj m) ->
  m !! "command" = None ->
  datagramReceived w data from c =
    mkResult (inr tt) (set_client_address (Some from) c)
      [TransportWrite (info "error" "Message has no command") from].
Proof. intros Hdec Hcmd. exact (no_command_run w data from m Hdec c Hcmd). Qed.

Lemma message_without_command_witness :
  datagramReceived (nominal no_command_msg) "" operator active =
    mkResult (inr tt) (set_client_address (Some operator) active)
      [TransportWrite (info "error" "Message has no command") operator].
Proof.
  apply (message_without_command (nominal no_command_msg) "" operator
           {["session_name" := JStr "survey1"]} active);
    vm_compute; reflexivity.
Defined.

(** X9: a command that is a string other than the six known ones, and
    that is ASCII, is answered with the tag [error] and the text
    [Unknown command: ] followed by the command.  One that ASCII cannot
    encode is not answered: [str(e)] raises [UnicodeEncodeError] in the
    handler, and that error leaves [datagramReceived].  Either way nothing
    but the client address changes. *)
Theorem unknown_command (w : World) (data name : string) (from : addr)
    (m : gmap string json) (c : Controller) :
  json_loads w data = inr (JObj m) ->
  m !! "command" = Some (JStr name) ->
  name <> "detector_config" -> name <> "start_session" -> name <> "stop_session" ->
  name <> "dump_session" -> name <> "get_status" -> name <> "sync_session" ->
  datagramReceived w data from c =
    if is_ascii name then
      mkResult (inr tt) (set_client_address (Some from) c)
        [TransportWrite (info "error" ("Unknown command: " +:+ name)) from]
    else
      mkResult (inl (UnicodeEncodeError w ("Unknown command: " +:+ name)))
        (set_client_address (Some from) c) [].
Proof.
  intros Hdec Hcmd H1 H2 H3 H4 H5 H6.
  destruct (is_ascii name) eqn:Hascii.
  - apply (unknown_command_run w data from m Hdec name c Hcmd);
      first [exact Hascii | apply String.eqb_neq; assumption].
  - apply (unknown_command_unicode_run w data from m Hdec name c Hcmd);
      first [exact Hascii | apply String.eqb_neq; assumption].
Qed.

Lemma unknown_command_witness :
  datagramReceived (nominal reboot_msg) "" operator active =
    mkResult (inr tt) (set_client_address (Some operator) active)
      [TransportWrite (info "error" ("Unknown command: " +:+ "reboot")) operator] /\
  datagramReceived (nominal accented_msg) "" operator active =
    mkResult (inl (UnicodeEncodeError (nominal accented_msg)
                     ("Unknown command: " +:+ e_acute)))
      (set_client_address (Some operator) active) [].
Proof.
  split.
  - apply (unknown_command (nominal reboot_msg) "" "reboot" operator
             (<["command" := JStr "reboot"]> ∅) active);
      try (vm_compute; reflexivity); discriminate.
  - apply (unknown_command (nominal accented_msg) "" e_acute operator
             (<["command" := JStr e_acute]> ∅) active);
      first [vm_compute; reflexivity | intros H; vm_compute in H; discriminate H].
Defined.

(** ** Detector configuration *)

(** X10: a [detector_config] received while a session runs is answered
    with [detector_config_busy] before anything is read from the message:
    the stored configuration, the plugin and the detector state stay as
    they are. *)
Theorem detector_config_while_active (w : World) (data : string) (from : addr)
    (m : gmap string json) (c : Controller) :
  json_loads w data = inr (JObj m) ->
  m !! "command" = Some (JStr "detector_config") ->
  session_state c = SessionState.Busy ->
  datagramReceived w data from c =
    mkResult (inr tt) (set_client_address (Some from) c)
      [TransportWrite
         (info "detector_config_busy" "Detector config failed, session is active") from].
Proof. intros Hdec Hcmd Hbusy. exact (detector_config_busy_run w data from m Hdec c Hcmd Hbusy). Qed.

Lemma detector_config_while_active_witness :
  datagramReceived (nominal nameless_config_msg) "" operator active =
    mkResult (inr tt) (set_client_address (Some operator) active)
      [TransportWrite
         (info "detector_config_busy" "Detector config failed, session is active")
         operator].
Proof.
  apply (detector_config_while_active (nominal nameless_config_msg) "" operator
           (<["command" := JStr "detector_config"]>
              {["detector_data" := JObj nameless_config]}) active);
    vm_compute; reflexivity.
Defined.

(** X11: a [detector_config] that succeeds.  The bound plugin, if any, is
    finalized, the module [plugin_] + name is imported unless it is
    loaded, then [initializePlugin] and [initializeDetector] are called on
    it, in this order, and the answer is the configuration itself with
    the command [detector_config_success].  Since the answer is the stored
    object, the configuration the controller holds afterwards carries
    that [command] too. *)
Theorem detector_config_succeeds (w : World) (data name : string) (from : addr)
    (m cfg : gmap string json) (c : Controller) :
  json_loads w data = inr (JObj m) ->
  m !! "command" = Some (JStr "detector_config") ->
  m !! "detector_data" = Some (JObj cfg) ->
  cfg !! "plugin_name" = Some (JStr name) ->
  session_state c = SessionState.Ready ->
  (forall old, plugin c = Some old -> plugin_finalizePlugin w old = None) ->
  (sys_modules w ("plugin_" +:+ name) = false ->
   import_module w ("plugin_" +:+ name) = None) ->
  plugin_initializePlugin w ("plugin_" +:+ name) = None ->
  plugin_initializeDetector w ("plugin_" +:+ name) (JObj cfg) = None ->
  let r := datagramReceived w data from c in
  let answer := JObj (<["command" := JStr "detector_config_success"]> cfg) in
  effects r =
    finalized c ++
    (if sys_modules w ("plugin_" +:+ name) then []
     else [ImportModule ("plugin_" +:+ name)]) ++
    [InitializePlugin ("plugin_" +:+ name);
     InitializeDetector ("plugin_" +:+ name) (JObj cfg);
     TransportWrite answer from] /\
  detector_state (self r) = DetectorState.Warm /\
  plugin (self r) = Some ("plugin_" +:+ name) /\
  detector_data (self r) = answer.
Proof.
  intros Hdec Hcmd Hcfg Hname Hidle Hfin Himp Hinit Hdet r answer. subst r answer.
  rewrite (detector_config_run w data from m Hdec c cfg name
             Hcmd Hcfg Hname Hidle Hfin Himp Hinit Hdet).
  repeat split.
Qed.

Lemma detector_config_succeeds_witness :
  let r := datagramReceived (nominal detector_config_msg) "" operator init in
  let answer :=
    JObj (<["command" := JStr "detector_config_success"]>
            (<["plugin_name" := JStr "osprey"]> {["voltage" := JInt 775]})) in
  effects r =
    finalized init ++
    (if sys_modules (nominal detector_config_msg) ("plugin_" +:+ "osprey") then []
     else [ImportModule ("plugin_" +:+ "osprey")]) ++
    [InitializePlugin ("plugin_" +:+ "osprey");
     InitializeDetector ("plugin_" +:+ "osprey")
       (JObj (<["plugin_name" := JStr "osprey"]> {["voltage" := JInt 775]}));
     TransportWrite answer operator] /\
  detector_state (self r) = DetectorState.Warm /\
  plugin (self r) = Some ("plugin_" +:+ "osprey") /\
  detector_data (self r) = answer.
Proof.
  apply (detector_config_succeeds (nominal detector_config_msg) "" "osprey" operator
           (<["command" := JStr "detector_config"]> {["detector_data" := osprey_config]})
           (<["plugin_name" := JStr "osprey"]> {["voltage" := JInt 775]}) init);
    vm_compute; reflexivity.
Defined.

(** ** Sessions *)

(** X12: a [start_session] that succeeds, with the acquisition state
    [Ready]: the database is created from the stored configuration and the
    message, the plugin's [initializeSession] is called, the looping call
    is started and its first tick, made at once, hands the first
    acquisition to the thread pool before the answer is written.  The
    answer is the message itself with the command [start_session_success],
    and the message is the session arguments: the arguments the
    controller holds afterwards carry that command.  The spectrum index
    and the failure counter start at 0. *)
Theorem start_session_succeeds (w : World) (data name p : string) (from : addr)
    (m : gmap string json) (h : conn) (c : Controller) :
  json_loads w data = inr (JObj m) ->
  m !! "command" = Some (JStr "start_session") ->
  m !! "session_name" = Some (JStr name) ->
  session_state c = SessionState.Ready ->
  spectrum_state c = SpectrumState.Ready ->
  plugin c = Some p ->
  database_create w (detector_data c) (JObj m) = inr h ->
  plugin_initializeSession w p (JObj m) = None ->
  let r := datagramReceived w data from c in
  let answer := JObj (<["command" := JStr "start_session_success"]> m) in
  effects r =
    [DatabaseCreate (detector_data c) (JObj m); InitializeSession p (JObj m);
     LoopStart; DeferToThread; TransportWrite answer from] /\
  session_state (self r) = SessionState.Busy /\
  session_loop (self r) = Some {| running := true |} /\
  session_args (self r) = answer /\
  database_connection (self r) = Some h /\
  spectrum_state (self r) = SpectrumState.Busy /\
  spectrum_index (self r) = 0%Z /\
  spectrum_failures (self r) = 0%Z.
Proof.
  intros Hdec Hcmd Hname Hidle Hready Hp Hdb Hinit r answer. subst r answer.
  rewrite (start_session_run w data from m Hdec c name p h
             Hcmd Hname Hidle Hready Hp Hdb Hinit).
  repeat split.
Qed.

Lemma start_session_succeeds_witness :
  let r := datagramReceived (nominal start_session_msg) "" operator configured in
  let m := <["command" := JStr "start_session"]>
             (<["session_name" := JStr "survey1"]> {["livetime" := JInt 1]}) in
  let answer := JObj (<["command" := JStr "start_session_success"]> m) in
  effects r =
    [DatabaseCreate (detector_data configured) (JObj m);
     InitializeSession "plugin_osprey" (JObj m);
     LoopStart; DeferToThread; TransportWrite answer operator] /\
  session_state (self r) = SessionState.Busy /\
  session_loop (self r) = Some {| running := true |} /\
  session_args (self r) = answer /\
  database_connection (self r) = Some 7%nat /\
  spectrum_state (self r) = SpectrumState.Busy /\
  spectrum_index (self r) = 0%Z /\
  spectrum_failures (self r) = 0%Z.
Proof.
  apply (start_session_succeeds (nominal start_session_msg) "" "survey1" "plugin_osprey"
           operator
           (<["command" := JStr "start_session"]>
              (<["session_name" := JStr "survey1"]> {["livetime" := JInt 1]}))
           7%nat configured);
    vm_compute; reflexivity.
Defined.

(** X13: a [stop_session] that names the running session and whose calls
    return: the looping call is stopped, the plugin's [finalizeSession] is
    called with the message, the database handle is closed and forgotten,
    the session state is [Ready], and the answer is the message with the
    command [stop_session_success].  The spectrum index, the failure
    counter and the acquisition state are left as they are. *)
Theorem stop_session_succeeds (w : World) (data p : string) (from : addr)
    (m held : gmap string json) (current given : json) (c : Controller) :
  json_loads w data = inr (JObj m) ->
  m !! "command" = Some (JStr "stop_session") ->
  session_state c = SessionState.Busy ->
  session_args c = JObj held ->
  held !! "session_name" = Some current ->
  m !! "session_name" = Some given ->
  py_eq current given = true ->
  session_loop c = Some {| running := true |} ->
  plugin c = Some p ->
  plugin_finalizeSession w p (JObj m) = None ->
  database_close w (database_connection c) = None ->
  let r := datagramReceived w data from c in
  effects r =
    [LoopStop; FinalizeSession p (JObj m); DatabaseClose (database_connection c);
     TransportWrite (JObj (<["command" := JStr "stop_session_success"]> m)) from] /\
  session_state (self r) = SessionState.Ready /\
  session_loop (self r) = Some {| running := false |} /\
  database_connection (self r) = None /\
  spectrum_index (self r) = spectrum_index c /\
  spectrum_failures (self r) = spectrum_failures c /\
  spectrum_state (self r) = spectrum_state c.
Proof.
  intros Hdec Hcmd Hbusy Hargs Hcur Hgiven Heq Hloop Hp Hfin Hclose r. subst r.
  rewrite (stop_session_run w data from m Hdec c held current given p
             Hcmd Hbusy Hargs Hcur Hgiven Heq Hloop Hp Hfin Hclose).
  repeat split.
Qed.

Lemma stop_session_succeeds_witness :
  let r := datagramReceived (nominal stop_session_msg) "" operator active in
  let m := <["command" := JStr "stop_session"]> {["session_name" := JStr "survey1"]} in
  effects r =
    [LoopStop; FinalizeSession "plugin_osprey" (JObj m);
     DatabaseClose (database_connection active);
     TransportWrite (JObj (<["command" := JStr "stop_session_success"]> m)) operator] /\
  session_state (self r) = SessionState.Ready /\
  session_loop (self r) = Some {| running := false |} /\
  database_connection (self r) = None /\
  spectrum_index (self r) = spectrum_index active /\
  spectrum_failures (self r) = spectrum_failures active /\
  spectrum_state (self r) = spectrum_state active.
Proof.
  apply (stop_session_succeeds (nominal stop_session_msg) "" "plugin_osprey" operator
           (<["command" := JStr "stop_session"]> {["session_name" := JStr "survey1"]})
           (<["command" := JStr "start_session_success"]>
              (<["command" := JStr "start_session"]>
                 (<["session_name" := JStr "survey1"]> {["livetime" := JInt 1]})))
           (JStr "survey1") (JStr "survey1") active);
    vm_compute; reflexivity.
Defined.

(** X14: a [stop_session] whose [session_name] differs from that of the
    running session is answered with [stop_session_wrongname], and the
    session keeps running: nothing but the client address changes. *)
Theorem stop_session_wrong_name (w : World) (data : string) (from : addr)
    (m held : gmap string json) (current given : json) (c : Controller) :
  json_loads w data = inr (JObj m) ->
  m !! "command" = Some (JStr "stop_session") ->
  session_state c = SessionState.Busy ->
  session_args c = JObj held ->
  held !! "session_name" = Some current ->
  m !! "session_name" = Some given ->
  py_eq current given = false ->
  datagramReceived w data from c =
    mkResult (inr tt) (set_client_address (Some from) c)
      [TransportWrite
         (info "stop_session_wrongname" "Stop session failed, wrong session name") from].
Proof.
  intros Hdec Hcmd Hbusy Hargs Hcur Hgiven Hneq.
  exact (stop_session_wrongname_run w data from m Hdec c held current given
           Hcmd Hbusy Hargs Hcur Hgiven Hneq).
Qed.

Lemma stop_session_wrong_name_witness :
  datagramReceived (nominal other_stop_msg) "" operator active =
    mkResult (inr tt) (set_client_address (Some operator) active)
      [TransportWrite
         (info "stop_session_wrongname" "Stop session failed, wrong session name")
         operator].
Proof.
  apply (stop_session_wrong_name (nominal other_stop_msg) "" operator
           (<["command" := JStr "stop_session"]> {["session_name" := JStr "survey2"]})
           (<["command" := JStr "start_session_success"]>
              (<["command" := JStr "start_session"]>
                 (<["session_name" := JStr "survey1"]> {["livetime" := JInt 1]})))
           (JStr "survey1") (JStr "survey2") active);
    vm_compute; reflexivity.
Defined.

(** X15: while no session runs, [stop_session] is answered with
    [stop_session_noexist] and [dump_session] with [dump_session_none],
    whatever else the message holds, and nothing but the client address
    changes. *)
Theorem no_session_to_stop_or_dump (w : World) (data : string) (from : addr)
    (m : gmap string json) (c : Controller) :
  json_loads w data = inr (JObj m) ->
  session_state c = SessionState.Ready ->
  (m !! "command" = Some (JStr "stop_session") ->
   datagramReceived w data from c =
     mkResult (inr tt) (set_client_address (Some from) c)
       [TransportWrite
          (info "stop_session_noexist" "Stop session failed, no session active") from]) /\
  (m !! "command" = Some (JStr "dump_session") ->
   datagramReceived w data from c =
     mkResult (inr tt) (set_client_address (Some from) c)
       [TransportWrite
          (info "dump_session_none" "Dump session failed, no session active") from]).
Proof.
  intros Hdec Hidle. split; intros Hcmd.
  - exact (stop_session_idle_run w data from m Hdec c Hcmd Hidle).
  - exact (dump_session_idle_run w data from m Hdec c Hcmd Hidle).
Qed.

Lemma no_session_to_stop_or_dump_witness :
  datagramReceived (nominal stop_session_msg) "" operator configured =
    mkResult (inr tt) (set_client_address (Some operator) configured)
      [TransportWrite
         (info "stop_session_noexist" "Stop session failed, no session active") operator].
Proof.
  apply (no_session_to_stop_or_dump (nominal stop_session_msg) "" operator
           (<["command" := JStr "stop_session"]> {["session_name" := JStr "survey1"]})
           configured);
    vm_compute; reflexivity.
Defined.

(** X16: a [stop_session] for which the plugin's [finalizeSession] raises
    is answered with the error, after the looping call has been stopped
    and the session state set to [Ready]: the session has ended, but
    [database.close] has not been called and the handle is still held. *)
Theorem stop_session_leaves_handle_open (w : World) (data p : string) (from : addr)
    (m held : gmap string json) (current given : json) (e : exn) (c : Controller) :
  json_loads w data = inr (JObj m) ->
  m !! "command" = Some (JStr "stop_session") ->
  session_state c = SessionState.Busy ->
  session_args c = JObj held ->
  held !! "session_name" = Some current ->
  m !! "session_name" = Some given ->
  py_eq current given = true ->
  session_loop c = Some {| running := true |} ->
  plugin c = Some p ->
  plugin_finalizeSession w p (JObj m) = Some e ->
  let r := datagramReceived w data from c in
  effects r =
    [LoopStop; FinalizeSession p (JObj m); TransportWrite (error_response e) from] /\
  session_state (self r) = SessionState.Ready /\
  session_loop (self r) = Some {| running := false |} /\
  database_connection (self r) = database_connection c.
Proof.
  intros Hdec Hcmd Hbusy Hargs Hcur Hgiven Heq Hloop Hp Hfin r. subst r.
  rewrite (stop_session_unfinalized_run w data from m Hdec c held current given p e
             Hcmd Hbusy Hargs Hcur Hgiven Heq Hloop Hp Hfin).
  repeat split.
Qed.

Lemma stop_session_leaves_handle_open_witness :
  let r := datagramReceived (stuck_plugin stop_session_msg) "" operator active in
  let m := <["command" := JStr "stop_session"]> {["session_name" := JStr "survey1"]} in
  effects r =
    [LoopStop; FinalizeSession "plugin_osprey" (JObj m);
     TransportWrite (error_response (Exception "detector lost")) operator] /\
  session_state (self r) = SessionState.Ready /\
  session_loop (self r) = Some {| running := false |} /\
  database_connection (self r) = database_connection active.
Proof.
  apply (stop_session_leaves_handle_open (stuck_plugin stop_session_msg) "" "plugin_osprey"
           operator
           (<["command" := JStr "stop_session"]> {["session_name" := JStr "survey1"]})
           (<["command" := JStr "start_session_success"]>
              (<["command" := JStr "start_session"]>
                 (<["session_name" := JStr "survey1"]> {["livetime" := JInt 1]})))
           (JStr "survey1") (JStr "survey1") (Exception "detector lost") active);
    vm_compute; reflexivity.
Defined.

(** X17: a [dump_session] received while a session runs is answered with
    the message itself, to which the text [dumping session to ] followed
    by the sender's address has been added under [message], with the
    command [dump_session_success]; nothing is dumped and nothing but the
    client address changes. *)
Theorem dump_session_while_active (w : World) (data : string) (from : addr)
    (m : gmap string json) (c : Controller) :
  json_loads w data = inr (JObj m) ->
  m !! "command" = Some (JStr "dump_session") ->
  session_state c = SessionState.Busy ->
  datagramReceived w data from c =
    mkResult (inr tt) (set_client_address (Some from) c)
      [TransportWrite
         (JObj (<["command" := JStr "dump_session_success"]>
                  (<["message" :=
                       JStr ("dumping session to " +:+ builtin_str_addr w (Some from))]> m)))
         from].
Proof. intros Hdec Hcmd Hbusy. exact (dump_session_run w data from m Hdec c Hcmd Hbusy). Qed.

Lemma dump_session_while_active_witness :
  datagramReceived (nominal dump_session_msg) "" operator active =
    mkResult (inr tt) (set_client_address (Some operator) active)
      [TransportWrite
         (JObj (<["command" := JStr "dump_session_success"]>
                  (<["message" := JStr ("dumping session to " +:+ "('10.0.0.2', 5000)")]>
                     (<["command" := JStr "dump_session"]> ∅))))
         operator].
Proof.
  apply (dump_session_while_active (nominal dump_session_msg) "" operator
           (<["command" := JStr "dump_session"]> ∅) active);
    vm_compute; reflexivity.
Defined.

(** ** Synchronisation *)

(** X18: a [sync_session] whose rows all have 22 columns or more is
    answered with one [spectrum] message for every row the database
    returns, in the order of the rows, and with nothing else; it is
    accepted whether a session runs or not and changes nothing but the
    client address. *)
Theorem sync_session_sends_rows (w : World) (data : string) (from : addr)
    (m : gmap string json) (name indices last : json) (idx : list json) (upto : Z)
    (specs : list (list json)) (c : Controller) :
  json_loads w data = inr (JObj m) ->
  m !! "command" = Some (JStr "sync_session") ->
  m !! "session_name" = Some name ->
  m !! "indices_list" = Some indices ->
  m !! "last_index" = Some last ->
  builtin_list w indices = inr idx ->
  builtin_int w last = inr upto ->
  database_getSyncSpectrums w name idx upto = inr specs ->
  Forall (fun s => (22 <= length s)%nat) specs ->
  exists replies,
    Forall2 (fun s r =>
               spectrum_of_row s spectrum_fields {["command" := JStr "spectrum"]} = inr r /\
               has_command r) specs replies /\
    datagramReceived w data from c =
      mkResult (inr tt) (set_client_address (Some from) c)
        (DatabaseQuery name idx upto :: map (fun r => TransportWrite r from) replies).
Proof.
  intros Hdec Hcmd Hname Hind Hlast Hlist Hint Hdb Hlong.
  destruct (rows_long specs Hlong) as [replies Hrows].
  exists replies. split.
  - eapply Forall2_impl; [exact Hrows|]. cbn. intros s r Hrow. split; [exact Hrow|].
    destruct (spectrum_of_row_command s r Hrow) as [built [-> Hb]].
    exists built, (JStr "spectrum"). split; [reflexivity | exact Hb].
  - exact (sync_session_run w data from m Hdec c name indices last idx upto specs replies
             Hcmd Hname Hind Hlast Hlist Hint Hdb Hrows).
Qed.

Lemma sync_session_sends_rows_witness :
  let w := archive sync_session_msg [stored_row 0; stored_row 1] in
  exists replies,
    Forall2 (fun s r =>
               spectrum_of_row s spectrum_fields {["command" := JStr "spectrum"]} = inr r /\
               has_command r) [stored_row 0; stored_row 1] replies /\
    datagramReceived w "" operator init =
      mkResult (inr tt) (set_client_address (Some operator) init)
        (DatabaseQuery (JStr "survey1") [] 0 :: map (fun r => TransportWrite r operator) replies).
Proof.
  apply (sync_session_sends_rows (archive sync_session_msg [stored_row 0; stored_row 1]) ""
           operator
           (<["command" := JStr "sync_session"]>
              (<["session_name" := JStr "survey1"]>
                 (<["indices_list" := JList []]> {["last_index" := JInt 0]})))
           (JStr "survey1") (JList []) (JInt 0) [] 0%Z [stored_row 0; stored_row 1] init);
    try (vm_compute; reflexivity).
  repeat constructor.
Defined.

(** X19: when a row the database returns has fewer than 22 columns, the
    rows before it are sent, the row and those after it are not, and the
    exception raised for the missing column is reported with the tag
    [error]. *)
Theorem sync_session_stops_at_short_row (w : World) (data : string) (from : addr)
    (m : gmap string json) (name indices last : json) (idx : list json) (upto : Z)
    (good rest : list (list json)) (bad : list json) (c : Controller) :
  json_loads w data = inr (JObj m) ->
  m !! "command" = Some (JStr "sync_session") ->
  m !! "session_name" = Some name ->
  m !! "indices_list" = Some indices ->
  m !! "last_index" = Some last ->
  builtin_list w indices = inr idx ->
  builtin_int w last = inr upto ->
  database_getSyncSpectrums w name idx upto = inr (good ++ bad :: rest) ->
  Forall (fun s => (22 <= length s)%nat) good ->
  (length bad < 22)%nat ->
  exists replies,
    Forall2 (fun s r =>
               spectrum_of_row s spectrum_fields {["command" := JStr "spectrum"]} = inr r)
      good replies /\
    datagramReceived w data from c =
      mkResult (inr tt) (set_client_address (Some from) c)
        (DatabaseQuery name idx upto :: map (fun r => TransportWrite r from) replies ++
         [TransportWrite (info "error" "tuple index out of range") from]).
Proof.
  intros Hdec Hcmd Hname Hind Hlast Hlist Hint Hdb Hlong Hshort.
  destruct (rows_long good Hlong) as [replies Hrows].
  exists replies. split; [exact Hrows|].
  exact (sync_session_short_run w data from m Hdec c name indices last idx upto
           good rest bad replies Hcmd Hname Hind Hlast Hlist Hint Hdb Hrows Hshort).
Qed.

Lemma sync_session_stops_at_short_row_witness :
  let w := archive sync_session_msg [stored_row 0; short_row; stored_row 2] in
  exists replies,
    Forall2 (fun s r =>
               spectrum_of_row s spectrum_fields {["command" := JStr "spectrum"]} = inr r)
      [stored_row 0] replies /\
    datagramReceived w "" operator init =
      mkResult (inr tt) (set_client_address (Some operator) init)
        (DatabaseQuery (JStr "survey1") [] 0 ::
         map (fun r => TransportWrite r operator) replies ++
         [TransportWrite (info "error" "tuple index out of range") operator]).
Proof.
  apply (sync_session_stops_at_short_row
           (archive sync_session_msg [stored_row 0; short_row; stored_row 2]) "" operator
           (<["command" := JStr "sync_session"]>
              (<["session_name" := JStr "survey1"]>
                 (<["indices_list" := JList []]> {["last_index" := JInt 0]})))
           (JStr "survey1") (JList []) (JInt 0) [] 0%Z
           [stored_row 0] [stored_row 2] short_row init);
    try (vm_compute; reflexivity).
  - repeat constructor.
  - vm_compute. lia.
Defined.

(** ** The scheduler *)

(** X20: when [database.insertSpectrum] raises for a result, the exception
    leaves [handleSpectrumSuccess] after the index has been incremented
    and before the result is sent and the acquisition state reset: the
    acquisition state stays [Busy] with nothing in flight, and no tick
    after that starts an acquisition, however many there are. *)
Theorem failed_insert_blocks_scheduler (w : World) (m : gmap string json) (e : exn)
    (n : nat) (s : Reactor) :
  in_flight s = 1%nat ->
  spectrum_state (controller s) = SpectrumState.Busy ->
  session_loop (controller s) = Some {| running := true |} ->
  database_insertSpectrum w (database_connection (controller s))
    (JObj (<["index" := JInt (spectrum_index (controller s))]> m)) = Some e ->
  exists s',
    run s (Acquired w (JObj m) :: replicate n Tick) = Some s' /\
    trace s' = trace s ++
      [DatabaseInsert (database_connection (controller s))
         (JObj (<["index" := JInt (spectrum_index (controller s))]> m))] /\
    spectrum_state (controller s') = SpectrumState.Busy /\
    in_flight s' = 0%nat /\
    spectrum_index (controller s') = (spectrum_index (controller s) + 1)%Z.
Proof.
  intros Hn Hbusy Hloop Hins. eexists. split.
  - cbn [run step]. rewrite Hn.
    rewrite (handleSpectrumSuccess_unstored_run w m e (controller s) Hins).
    apply ticks_while_busy; cbn; assumption.
  - cbn. repeat split. exact Hbusy.
Qed.

Lemma failed_insert_blocks_scheduler_witness :
  exists s',
    run active_reactor
      (Acquired (full_disk JNull) spectrum_msg :: replicate 3 Tick) = Some s' /\
    spectrum_state (controller s') = SpectrumState.Busy /\
    in_flight s' = 0%nat.
Proof.
  destruct (failed_insert_blocks_scheduler (full_disk JNull)
              (<["command" := JStr "spectrum"]> {["channels" := JStr "0 1 2"]})
              (Exception "database or disk is full") 3 active_reactor)
    as [s' [Hrun [_ [Hbusy [Hn _]]]]]; try (vm_compute; reflexivity).
  exists s'. repeat split; assumption.
Defined.

(** X21: a failure that brings the counter to 3 or more when the looping
    call has already been stopped, as after a [stop_session], is reported
    to the client, but [stopSession] then raises on the stopped looping
    call: the terminal message is not sent, and the acquisition state is
    not reset. *)
Theorem late_failure_after_stop (w : World) (err : string) (to : addr) (c : Controller) :
  client_address c = Some to ->
  (3 <= spectrum_failures c + 1)%Z ->
  session_loop c = Some {| running := false |} ->
  let r := handleSpectrumFailure w err c in
  value r = inl (AssertionError "Tried to stop a LoopingCall that was not running.") /\
  effects r = [TransportWrite (info "error" err) to] /\
  spectrum_state (self r) = spectrum_state c /\
  spectrum_failures (self r) = (spectrum_failures c + 1)%Z.
Proof.
  intros Hto Hhigh Hloop r. subst r.
  rewrite (handleSpectrumFailure_stopped_run w err to c Hto); [repeat split | | exact Hloop].
  apply Z.leb_le. exact Hhigh.
Qed.

Lemma late_failure_after_stop_witness :
  let w := nominal stop_session_msg in
  let c := match run active_reactor
                   [AcquireFailed w "timeout"; Tick; AcquireFailed w "timeout"; Tick;
                    Datagram w "" operator] with
           | Some s => controller s | None => init end in
  let r := handleSpectrumFailure w "timeout" c in
  value r = inl (AssertionError "Tried to stop a LoopingCall that was not running.") /\
  effects r = [TransportWrite (info "error" "timeout") operator] /\
  spectrum_state (self r) = spectrum_state c /\
  spectrum_failures (self r) = (spectrum_failures c + 1)%Z.
Proof.
  intros w c.
  apply (late_failure_after_stop w "timeout" operator c).
  - vm_compute. reflexivity.
  - vm_compute. discriminate.
  - vm_compute. reflexivity.
Defined.

(** X22: [aquireSpectrum] leaves the controller as it is and returns the
    plugin's message with the GPS readings merged into it: [time] is the
    GPS time, and under every other key the value is that of the GPS
    velocity if it has the key, else that of the GPS position if it has
    the key, else the plugin's. *)
Theorem aquireSpectrum_merges_gps (w : World) (p : string) (m : gmap string json)
    (c : Controller) :
  plugin c = Some p ->
  plugin_acquireSpectrum w p (session_args c) = inr (JObj m) ->
  exists merged,
    aquireSpectrum w c = mkResult (inr (JObj merged)) c [] /\
    merged !! "time" = Some (gps_time w) /\
    forall k, k <> "time" ->
      merged !! k =
        match gps_velocity w !! k with
        | Some v => Some v
        | None => match gps_position w !! k with
                  | Some v => Some v
                  | None => m !! k
                  end
        end.
Proof.
  intros Hp Hacq. eexists. split; [exact (aquireSpectrum_run w p m c Hp Hacq)|].
  split; [apply lookup_insert_eq|].
  intros k Hk. rewrite lookup_insert_ne by congruence.
  rewrite !lookup_union.
  destruct (gps_velocity w !! k), (gps_position w !! k), (m !! k); reflexivity.
Qed.

Lemma aquireSpectrum_merges_gps_witness :
  let w := archive JNull [] in
  exists merged,
    aquireSpectrum w active = mkResult (inr (JObj merged)) active [] /\
    merged !! "time" = Some (gps_time w) /\
    forall k, k <> "time" ->
      merged !! k =
        match gps_velocity w !! k with
        | Some v => Some v
        | None => match gps_position w !! k with
                  | Some v => Some v
                  | None => ({["command" := JStr "spectrum"]} : gmap string json) !! k
                  end
        end.
Proof.
  apply (aquireSpectrum_merges_gps (archive JNull []) "plugin_osprey"
           {["command" := JStr "spectrum"]} active);
    vm_compute; reflexivity.
Defined.

(** X23: when the port is closed while a plugin is bound whose
    [finalizePlugin] raises, the exception leaves [stopProtocol] at once:
    the GPS thread is neither told to stop nor waited for. *)
Theorem stopProtocol_leaves_gps_running (w : World) (p : string) (e : exn)
    (c : Controller) :
  plugin c = Some p ->
  plugin_finalizePlugin w p = Some e ->
  let r := stopProtocol w c in
  value r = inl e /\
  effects r = [FinalizePlugin p] /\
  ~ In GpsStopSet (effects r) /\ ~ In GpsJoin (effects r).
Proof.
  intros Hp Hfin r. subst r. rewrite (stopProtocol_raise_run w p e c Hp Hfin).
  cbn. repeat split; intros [H|[]]; discriminate H.
Qed.

Lemma stopProtocol_leaves_gps_running_witness :
  let r := stopProtocol broken_plugin configured in
  value r = inl (Exception "device busy") /\
  effects r = [FinalizePlugin "plugin_osprey"] /\
  ~ In GpsStopSet (effects r) /\ ~ In GpsJoin (effects r).
Proof.
  apply (stopProtocol_leaves_gps_running broken_plugin "plugin_osprey"
           (Exception "device busy") configured);
    vm_compute; reflexivity.
Defined.

(** X24: a session that is started and then stopped under the same name,
    all calls returning.  The handle that is closed is the one
    [database.create] returned, and the session state is [Ready] again
    with no handle held; but the acquisition that the first tick started
    is still in flight and the acquisition state still [Busy]. *)
Theorem start_then_stop (w1 w2 : World) (d1 d2 name p : string) (from : addr)
    (m1 m2 : gmap string json) (h : conn) (s : Reactor) :
  json_loads w1 d1 = inr (JObj m1) ->
  m1 !! "command" = Some (JStr "start_session") ->
  m1 !! "session_name" = Some (JStr name) ->
  json_loads w2 d2 = inr (JObj m2) ->
  m2 !! "command" = Some (JStr "stop_session") ->
  m2 !! "session_name" = Some (JStr name) ->
  session_state (controller s) = SessionState.Ready ->
  spectrum_state (controller s) = SpectrumState.Ready ->
  plugin (controller s) = Some p ->
  database_create w1 (detector_data (controller s)) (JObj m1) = inr h ->
  plugin_initializeSession w1 p (JObj m1) = None ->
  plugin_finalizeSession w2 p (JObj m2) = None ->
  database_close w2 (Some h) = None ->
  exists s',
    run s [Datagram w1 d1 from; Datagram w2 d2 from] = Some s' /\
    trace s' = trace s ++
      [DatabaseCreate (detector_data (controller s)) (JObj m1);
       InitializeSession p (JObj m1);
       LoopStart; DeferToThread;
       TransportWrite (JObj (<["command" := JStr "start_session_success"]> m1)) from;
       LoopStop; FinalizeSession p (JObj m2); DatabaseClose (Some h);
       TransportWrite (JObj (<["command" := JStr "stop_session_success"]> m2)) from] /\
    session_state (controller s') = SessionState.Ready /\
    session_loop (controller s') = Some {| running := false |} /\
    database_connection (controller s') = None /\
    spectrum_state (controller s') = SpectrumState.Busy /\
    in_flight s' = (in_flight s + 1)%nat.
Proof.
  intros Hdec1 Hcmd1 Hname1 Hdec2 Hcmd2 Hname2 Hidle Hready Hp Hdb Hinit Hfin Hclose.
  eexists. split.
  - cbn [run step].
    rewrite (start_session_run w1 d1 from m1 Hdec1 (controller s) name p h
               Hcmd1 Hname1 Hidle Hready Hp Hdb Hinit).
    cbn [after controller self].
    erewrite (stop_session_run w2 d2 from m2 Hdec2 _
                (<["command" := JStr "start_session_success"]> m1)
                (JStr name) (JStr name) p Hcmd2).
    + reflexivity.
    + reflexivity.
    + reflexivity.
    + rewrite lookup_insert_ne by discriminate. exact Hname1.
    + exact Hname2.
    + cbn. apply String.eqb_refl.
    + reflexivity.
    + cbn. exact Hp.
    + exact Hfin.
    + cbn. exact Hclose.
  - cbn [after controller trace in_flight self effects].
    rewrite <- app_assoc. repeat split.
    change ((in_flight s + 1 + 0)%nat = (in_flight s + 1)%nat). lia.
Qed.

Lemma start_then_stop_witness :
  exists s',
    run {| controller := configured; in_flight := 0; trace := [] |}
      [Datagram (nominal start_session_msg) "" operator;
       Datagram (nominal stop_session_msg) "" operator] = Some s' /\
    session_state (controller s') = SessionState.Ready /\
    database_connection (controller s') = None /\
    spectrum_state (controller s') = SpectrumState.Busy /\
    in_flight s' = 1%nat.
Proof.
  destruct (start_then_stop (nominal start_session_msg) (nominal stop_session_msg)
              "" "" "survey1" "plugin_osprey" operator
              (<["command" := JStr "start_session"]>
                 (<["session_name" := JStr "survey1"]> {["livetime" := JInt 1]}))
              (<["command" := JStr "stop_session"]> {["session_name" := JStr "survey1"]})
              7%nat {| controller := configured; in_flight := 0; trace := [] |})
    as [s' [Hrun [_ [Hidle [_ [Hdb [Hbusy Hn]]]]]]]; try (vm_compute; reflexivity).
  exists s'. repeat split; assumption.
Defined.




(** X26: a [detector_config] whose plugin module is found but whose
    [initializePlugin] raises, as it does for a module that defines none,
    is answered with the error; the detector state is left as it is, but
    the module has become the bound plugin and the configuration the
    stored one. *)
Theorem detector_config_binds_before_initializing (w : World) (data name : string)
    (from : addr) (m cfg : gmap string json) (e : exn) (c : Controller) :
  json_loads w data = inr (JObj m) ->
  m !! "command" = Some (JStr "detector_config") ->
  m !! "detector_data" = Some (JObj cfg) ->
  cfg !! "plugin_name" = Some (JStr name) ->
  session_state c = SessionState.Ready ->
  (forall old, plugin c = Some old -> plugin_finalizePlugin w old = None) ->
  (sys_modules w ("plugin_" +:+ name) = false ->
   import_module w ("plugin_" +:+ name) = None) ->
  plugin_initializePlugin w ("plugin_" +:+ name) = Some e ->
  let r := datagramReceived w data from c in
  effects r =
    finalized c ++
    (if sys_modules w ("plugin_" +:+ name) then []
     else [ImportModule ("plugin_" +:+ name)]) ++
    [InitializePlugin ("plugin_" +:+ name); TransportWrite (error_response e) from] /\
  plugin (self r) = Some ("plugin_" +:+ name) /\
  detector_state (self r) = detector_state c /\
  detector_data (self r) = JObj cfg.
Proof.
  intros Hdec Hcmd Hcfg Hname Hidle Hfin Himp Hinit r. subst r.
  rewrite (detector_config_uninitialized_run w data from m Hdec c cfg name e
             Hcmd Hcfg Hname Hidle Hfin Himp Hinit).
  repeat split.
Qed.

Lemma detector_config_binds_before_initializing_witness :
  let r := datagramReceived (as_shipped detector_config_msg) "" operator init in
  effects r =
    [ImportModule "plugin_osprey"; InitializePlugin "plugin_osprey";
     TransportWrite
       (info "error" "'module' object has no attribute 'initializePlugin'") operator] /\
  plugin (self r) = Some "plugin_osprey" /\
  detector_state (self r) = DetectorState.Cold /\
  detector_data (self r) = osprey_config.
Proof.
  apply (detector_config_binds_before_initializing (as_shipped detector_config_msg) ""
           "osprey" operator
           (<["command" := JStr "detector_config"]> {["detector_data" := osprey_config]})
           (<["plugin_name" := JStr "osprey"]> {["voltage" := JInt 775]})
           (AttributeError "module" "initializePlugin") init);
    vm_compute; reflexivity.
Defined.

(** X27: [start_session] does not reset the acquisition state.  A session
    started while it is [Busy] starts no acquisition, neither at its first
    tick nor at any later one: it acquires nothing until the result or
    the failure of an earlier acquisition arrives. *)
Theorem session_started_while_busy (w : World) (data name p : string) (from : addr)
    (m : gmap string json) (h : conn) (n : nat) (s : Reactor) :
  json_loads w data = inr (JObj m) ->
  m !! "command" = Some (JStr "start_session") ->
  m !! "session_name" = Some (JStr name) ->
  session_state (controller s) = SessionState.Ready ->
  spectrum_state (controller s) = SpectrumState.Busy ->
  plugin (controller s) = Some p ->
  database_create w (detector_data (controller s)) (JObj m) = inr h ->
  plugin_initializeSession w p (JObj m) = None ->
  exists s',
    run s (Datagram w data from :: replicate n Tick) = Some s' /\
    trace s' = trace s ++
      [DatabaseCreate (detector_data (controller s)) (JObj m);
       InitializeSession p (JObj m);
       LoopStart;
       TransportWrite (JObj (<["command" := JStr "start_session_success"]> m)) from] /\
    session_state (controller s') = SessionState.Busy /\
    spectrum_state (controller s') = SpectrumState.Busy /\
    in_flight s' = in_flight s.
Proof.
  intros Hdec Hcmd Hname Hidle Hbusy Hp Hdb Hinit. eexists. split.
  - cbn [run step].
    rewrite (start_session_pending_run w data from m Hdec (controller s) name p h
               Hcmd Hname Hidle Hbusy Hp Hdb Hinit).
    apply ticks_while_busy; cbn; first [reflexivity | exact Hbusy].
  - cbn [after controller trace in_flight self effects]. repeat split.
    + cbn. exact Hbusy.
    + change ((in_flight s + 0)%nat = in_flight s). lia.
Qed.

Lemma session_started_while_busy_witness :
  let w := nominal start_session_msg in
  let s := match run active_reactor
                   [Acquired (full_disk JNull) spectrum_msg;
                    Datagram (nominal stop_session_msg) "" operator] with
           | Some s => s | None => boot end in
  exists s',
    run s (Datagram w "" operator :: replicate 3 Tick) = Some s' /\
    session_state (controller s') = SessionState.Busy /\
    spectrum_state (controller s') = SpectrumState.Busy /\
    in_flight s' = 0%nat.
Proof.
  intros w s.
  destruct (session_started_while_busy w "" "survey1" "plugin_osprey" operator
              (<["command" := JStr "start_session"]>
                 (<["session_name" := JStr "survey1"]> {["livetime" := JInt 1]}))
              7%nat 3 s)
    as [s' [Hrun [_ [Hb [Hs Hn]]]]]; try (vm_compute; reflexivity).
  exists s'. repeat split; assumption.
Defined.

(** ** The Osprey plugin *)

Lemma set_gains_run (dev : Device) (coarse_gain fine_gain num_channels lld uld : json)
    (c f l u : Q) (n : Z) :
  py_float dev coarse_gain = inr c ->
  py_float dev fine_gain = inr f ->
  py_int dev num_channels = inr n ->
  py_float dev lld = inr l ->
  py_float dev uld = inr u ->
  set_gains dev coarse_gain fine_gain num_channels lld uld = (gains_set c f l u n, inr tt).
Proof.
  intros Hc Hf Hn Hl Hu. unfold set_gains. rewrite Hc, Hf, Hn, Hl, Hu. reflexivity.
Qed.

(** The wait ends at the first reading that is not [True]. *)
Lemma wait_ramping_run (dev : Device) (n fuel k : nat) :
  (forall i, (i < n)%nat -> ramping dev (k + i) = true) ->
  ramping dev (k + n) = false ->
  (n < fuel)%nat ->
  wait_ramping dev fuel k =
    Some (concat (replicate n [GetParameter Input_VoltageRamping detector_input;
                               Sleep (4 # 10)]) ++
          [GetParameter Input_VoltageRamping detector_input]).
Proof.
  revert fuel k. induction n as [|n IH]; intros fuel k Hramp Hstop Hfuel.
  - destruct fuel as [|fuel]; [lia|]. cbn [wait_ramping].
    rewrite Nat.add_0_r in Hstop. rewrite Hstop. reflexivity.
  - destruct fuel as [|fuel]; [lia|]. cbn [wait_ramping].
    pose proof (Hramp 0%nat ltac:(lia)) as H0. rewrite Nat.add_0_r in H0. rewrite H0.
    rewrite (IH fuel (S k)).
    + reflexivity.
    + intros i Hi. replace (S k + i)%nat with (k + S i)%nat by lia. apply Hramp. lia.
    + replace (S k + n)%nat with (k + S n)%nat by lia. exact Hstop.
    + lia.
Qed.

(** X28: when the probe reports a stabilized high voltage (bit 0x00100000
    of its status), [_stabilizeProbe] neither sets the voltage nor waits,
    nor even converts the [voltage] it is given: it reads the status and
    sets the coarse gain, the fine gain, the number of channels, the
    manual LLD mode, the LLD and the ULD, in this order, whatever fuel is
    given. *)
Theorem stabilized_probe_keeps_voltage (dev : Device) (fuel : nat)
    (voltage coarse_gain fine_gain num_channels lld uld : json) (c f l u : Q) (n : Z) :
  Z.testbit (probe_status dev) 20 = true ->
  py_float dev coarse_gain = inr c ->
  py_float dev fine_gain = inr f ->
  py_int dev num_channels = inr n ->
  py_float dev lld = inr l ->
  py_float dev uld = inr u ->
  _stabilizeProbe dev fuel voltage coarse_gain fine_gain num_channels lld uld =
    Some (GetParameter Input_Status detector_input :: gains_set c f l u n, inr tt).
Proof.
  intros Hbit Hc Hf Hn Hl Hu. unfold _stabilizeProbe.
  assert (Hland : Z.land (probe_status dev) Stabilized_Probe_OK = Stabilized_Probe_OK).
  { apply Z.bits_inj'. intros i Hi. rewrite Z.land_spec.
    destruct (Z.eq_dec i 20%Z) as [->|Hne].
    - rewrite Hbit. reflexivity.
    - replace (Z.testbit Stabilized_Probe_OK i) with false;
        [apply andb_false_r|].
      change Stabilized_Probe_OK with (2 ^ 20)%Z.
      symmetry. apply Z.pow2_bits_false. lia. }
  rewrite Hland, Z.eqb_refl. cbn [negb].
  rewrite (set_gains_run dev _ _ _ _ _ c f l u n Hc Hf Hn Hl Hu). reflexivity.
Qed.

Lemma stabilized_probe_keeps_voltage_witness :
  _stabilizeProbe stable_device 0 (JStr "high") (JInt 2) (JInt 1) (JInt 1024) (JInt 3)
    (JInt 110) =
    Some (GetParameter Input_Status detector_input ::
          gains_set (inject_Z 2) (inject_Z 1) (inject_Z 3) (inject_Z 110) 1024, inr tt).
Proof.
  apply (stabilized_probe_keeps_voltage stable_device 0 (JStr "high") (JInt 2) (JInt 1)
           (JInt 1024) (JInt 3) (JInt 110));
    vm_compute; reflexivity.
Defined.

(** X29: when the probe does not report a stabilized high voltage,
    [_stabilizeProbe] sets the voltage, switches it on, and reads
    [Input_VoltageRamping] every 0.4 s until a reading is not [True]; if
    that is the reading numbered [n], it has slept [n] times, and with
    more than [n] readings allowed it returns after setting the six other
    parameters. *)
Theorem cold_probe_is_ramped (dev : Device) (fuel n : nat)
    (voltage coarse_gain fine_gain num_channels lld uld : json) (c f l u : Q) (v k : Z) :
  Z.testbit (probe_status dev) 20 = false ->
  py_int dev voltage = inr v ->
  (forall i, (i < n)%nat -> ramping dev i = true) ->
  ramping dev n = false ->
  (n < fuel)%nat ->
  py_float dev coarse_gain = inr c ->
  py_float dev fine_gain = inr f ->
  py_int dev num_channels = inr k ->
  py_float dev lld = inr l ->
  py_float dev uld = inr u ->
  _stabilizeProbe dev fuel voltage coarse_gain fine_gain num_channels lld uld =
    Some ([GetParameter Input_Status detector_input;
           SetParameter Input_Voltage (PInt v) detector_input;
           SetParameter Input_VoltageStatus (PBool true) detector_input;
           PrintLine "Ramping HVPS..."] ++
          concat (replicate n [GetParameter Input_VoltageRamping detector_input;
                               Sleep (4 # 10)]) ++
          [GetParameter Input_VoltageRamping detector_input] ++
          gains_set c f l u k, inr tt).
Proof.
  intros Hbit Hv Hramp Hstop Hfuel Hc Hf Hk Hl Hu. unfold _stabilizeProbe.
  assert (Hland : (Z.land (probe_status dev) Stabilized_Probe_OK =? Stabilized_Probe_OK)%Z
                  = false).
  { apply Z.eqb_neq. intros Heq.
    assert (Hb : Z.testbit (Z.land (probe_status dev) Stabilized_Probe_OK) 20 = true)
      by (rewrite Heq; reflexivity).
    rewrite Z.land_spec, Hbit in Hb. discriminate Hb. }
  rewrite Hland. cbn [negb]. rewrite Hv.
  rewrite (wait_ramping_run dev n fuel 0) by assumption.
  rewrite (set_gains_run dev _ _ _ _ _ c f l u k Hc Hf Hk Hl Hu).
  cbn [dbind dcall app]. rewrite <- app_assoc. reflexivity.
Qed.

Lemma cold_probe_is_ramped_witness :
  _stabilizeProbe cold_device 5 (JInt 775) (JInt 2) (JInt 1) (JInt 1024) (JInt 3)
    (JInt 110) =
    Some ([GetParameter Input_Status detector_input;
           SetParameter Input_Voltage (PInt 775) detector_input;
           SetParameter Input_VoltageStatus (PBool true) detector_input;
           PrintLine "Ramping HVPS..."] ++
          concat (replicate 2 [GetParameter Input_VoltageRamping detector_input;
                               Sleep (4 # 10)]) ++
          [GetParameter Input_VoltageRamping detector_input] ++
          gains_set (inject_Z 2) (inject_Z 1) (inject_Z 3) (inject_Z 110) 1024, inr tt).
Proof.
  apply (cold_probe_is_ramped cold_device 5 2 (JInt 775) (JInt 2) (JInt 1) (JInt 1024)
           (JInt 3) (JInt 110));
    try (vm_compute; reflexivity).
  - intros i Hi. destruct i as [|[|i]]; [reflexivity | reflexivity | lia].
  - lia.
Defined.

(** X30: when the configuration lacks one of [voltage], [coarse_gain],
    [fine_gain], [num_channels], [lld] and [uld], [initializeDetector]
    raises the [KeyError] of the first one missing after it has created,
    opened and locked the device, and before it reads or sets any
    parameter. *)
Theorem initializeDetector_missing_key (dev : Device) (fuel : nat)
    (config : gmap string json) (k : string) :
  head (filter (fun key => bool_decide (config !! key = None))
          ["voltage"; "coarse_gain"; "fine_gain"; "num_channels"; "lld"; "uld"]) = Some k ->
  initializeDetector dev fuel (JObj config) =
    Some ([CreateInstance; OpenDevice "" detector_interface_ip;
           LockDevice "administrator" "password" detector_input],
          inl (KeyError k)).
Proof.
  intros Hk. unfold initializeDetector. cbn [py_getitem].
  cbn [filter list_filter] in Hk.
  repeat match type of Hk with
  | context [bool_decide (config !! ?key = None)] =>
      destruct (config !! key) as [?|] eqn:?;
        [ rewrite bool_decide_eq_false_2 in Hk by discriminate
        | rewrite bool_decide_eq_true_2 in Hk by reflexivity;
          cbn in Hk; injection Hk as <-; reflexivity ];
        cbn [filter list_filter] in Hk
  end.
  discriminate Hk.
Qed.

Lemma initializeDetector_missing_key_witness :
  initializeDetector stable_device 0 osprey_config =
    Some ([CreateInstance; OpenDevice "" detector_interface_ip;
           LockDevice "administrator" "password" detector_input],
          inl (KeyError "coarse_gain")).
Proof.
  apply (initializeDetector_missing_key stable_device 0
           (<["plugin_name" := JStr "osprey"]> {["voltage" := JInt 775]}) "coarse_gain").
  vm_compute. reflexivity.
Defined.
